(** * NeuraLoadAPP: the BLE test screen (BleTest.tsx)

    A shallow embedding of the protocol-relevant part of the screen
    component [BleTest]: the scan callback, the connect sequence, the
    three notification callbacks with their float32 parse loops, the
    device-id read, [disconnectDevice], [getImuMatrix] and the render:
    the button, the view of a connected device with its sensor blocks,
    and the device list.

    The model follows the fuller revision of the screen (IMU of 36
    floats, Laser, Weight, Device ID).  The earlier revision has the same
    scanner and the same parse loops; its IMU callback and its render,
    which differ, are modelled next to the later ones
    ([imuMonitor_earlier], [renderBody_earlier]).

    React state is an explicit record ([AppState]); every [setX] is a
    record update.  The callbacks and the segments of the [async]
    functions between two [await]s are computations in a small state
    monad over a [World] that also records the calls made to the
    collaborators (BleManager, PermissionsAndroid, console, timers).  The
    asynchronous environment is an event type with a step function. *)

From Stdlib Require Import String Ascii ZArith Bool Arith Lia List.
From Stdlib.Strings Require Import Byte.
From Stdlib Require Import Floats.
From Equations Require Import Equations.
Import ListNotations.

(** ** Values *)

(** A JavaScript number is an IEEE-754 binary64: Rocq's primitive [float]. *)
Definition number := float.

(** A [Buffer] is a sequence of octets. *)
Definition Buffer := list byte.

Definition octet (b : byte) : Z := Z.of_N (Byte.to_N b).

(** What a callback may throw. [Buffer]'s readers raise a [RangeError]
    when the read does not fit in the buffer. *)
Inductive Exception : Type :=
| RangeError.

Inductive Completion (A : Type) : Type :=
| Normal (a : A)
| Throw (e : Exception).

Arguments Normal {A} a.
Arguments Throw {A} e.

(** ** The Buffer readers the screen uses *)

(** The 32-bit word stored little-endian in four octets. *)
Definition word32LE (b0 b1 b2 b3 : byte) : Z :=
  Z.lor (octet b0)
    (Z.lor (Z.shiftl (octet b1) 8)
       (Z.lor (Z.shiftl (octet b2) 16) (Z.shiftl (octet b3) 24))).

(** The number an IEEE-754 binary32 bit pattern denotes: sign bit 31,
    biased exponent in bits 30..23, fraction in bits 22..0.  Every
    binary32 value is a binary64 value, so the conversion is exact. *)
Definition float32_of_bits (w : Z) : number :=
  let s := Z.testbit w 31 in
  let e := Z.land (Z.shiftr w 23) 255 in
  let m := Z.land w 8388607 in
  if (e =? 255)%Z then
    if (m =? 0)%Z then (if s then neg_infinity else infinity) else nan
  else
    let v :=
      if (e =? 0)%Z
      then Z.ldexp (PrimFloat.of_uint63 (Uint63.of_Z m)) (-149)
      else Z.ldexp (PrimFloat.of_uint63 (Uint63.of_Z (m + 8388608))) (e - 150) in
    if s then PrimFloat.opp v else v.

(** [buffer.readFloatLE(offset)]: the float32 at [offset, offset+4), or a
    [RangeError] when [offset + 4] exceeds the buffer's length. *)
Definition readFloatLE (buffer : Buffer) (offset : nat) : Completion number :=
  match skipn offset buffer with
  | b0 :: b1 :: b2 :: b3 :: _ => Normal (float32_of_bits (word32LE b0 b1 b2 b3))
  | _ => Throw RangeError
  end.

(** ** The float parse loop of the IMU and Laser callbacks

<<
    const floats: number[] = [];
    for (let i = 0; i < buffer.length; i += 4) {
      floats.push(buffer.readFloatLE(i));
    }
>>
    [parseLoop buffer i floats] is the loop from the test of its
    condition at index [i] with [floats] collected so far. *)
Equations? parseLoop (buffer : Buffer) (i : nat) (floats : list number)
  : Completion (list number) by wf (length buffer - i) lt :=
  parseLoop buffer i floats with lt_dec i (length buffer) => {
    | right _ => Normal floats
    | left _ with readFloatLE buffer i => {
        | Throw e => Throw e
        | Normal x => parseLoop buffer (i + 4) (floats ++ [x]) } }.
Proof. lia. Qed.

Definition parseFloats (buffer : Buffer) : Completion (list number) :=
  parseLoop buffer 0 [].

(** ** [getImuMatrix]

<<
    const matrix: number[][] = [];
    for (let i = 0; i < imuData.length; i += 9) {
      matrix.push(imuData.slice(i, i + 9));
    }
    return matrix;
>>
    [slice] clamps both ends to the array, as [Array.prototype.slice]
    does for non-negative indices. *)
Definition slice {A : Type} (l : list A) (from to : nat) : list A :=
  firstn (to - from) (skipn from l).

Equations? matrixLoop (imuData : list number) (i : nat) (matrix : list (list number))
  : list (list number) by wf (length imuData - i) lt :=
  matrixLoop imuData i matrix with lt_dec i (length imuData) => {
    | right _ => matrix
    | left _ => matrixLoop imuData (i + 9) (matrix ++ [slice imuData i (i + 9)]) }.
Proof. lia. Qed.

Definition getImuMatrix (imuData : list number) : list (list number) :=
  matrixLoop imuData 0 [].

(** ** Constants of the screen *)

Definition SENSOR_SERVICE_UUID : string := "00000001-736c-4645-b520-7127aadf8c47".
Definition IMU_CHARACTERISTIC_UUID : string := "00000002-736c-4645-b520-7127aadf8c47".
Definition LASER_CHARACTERISTIC_UUID : string := "00000003-736c-4645-b520-7127aadf8c47".
Definition WEIGHT_CHARACTERISTIC_UUID : string := "00000004-736c-4645-b520-7127aadf8c47".
Definition DEVICE_ID_CHARACTERISTIC_UUID : string := "00000005-736c-4645-b520-7127aadf8c47".
Definition DEVICE_LOCAL_NAME : string := "NeuraLoad".

(** ** Data of react-native-ble-plx as the screen sees it *)

(** A [Device]: the platform id and the advertised local name
    ([string | null]). *)
Record Device : Type := { id : string; name : option string }.

(** A [Characteristic]: its [value] is base64 text or null. *)
Record Characteristic : Type := { value : option string }.

(** A [BleError], kept as its message. *)
Definition BleError := string.

(** ** React state of the component *)

Record AppState : Type := {
  allDevices : list Device;
  connectedDevice : option Device;
  isScanning : bool;
  imuData : list number;
  laserData : list number;
  weightData : number;
  deviceID : string
}.

(** The [useState] initial values. *)
Definition initialState : AppState := {|
  allDevices := [];
  connectedDevice := None;
  isScanning := false;
  imuData := [];
  laserData := [];
  weightData := 0%float;
  deviceID := "N/A"
|}.

(** ** The world of a running screen *)

Inductive Permission : Type :=
| BLUETOOTH_SCAN
| BLUETOOTH_CONNECT
| ACCESS_FINE_LOCATION.

(** The notification channels [startNotifications] subscribes to. *)
Inductive Channel : Type :=
| ImuChannel
| LaserChannel
| WeightChannel.

Definition characteristic_of (c : Channel) : string :=
  match c with
  | ImuChannel => IMU_CHARACTERISTIC_UUID
  | LaserChannel => LASER_CHARACTERISTIC_UUID
  | WeightChannel => WEIGHT_CHARACTERISTIC_UUID
  end.

(** Calls the screen makes to its collaborators, in the order made. *)
Inductive Call : Type :=
| console_log (label : string)
| bleManager_stopDeviceScan
| bleManager_startDeviceScan
| window_setTimeout (ms : Z)
| PermissionsAndroid_request (p : Permission)
| bleManager_connectToDevice (deviceId : string)
| device_discoverAllServicesAndCharacteristics (deviceId : string)
| device_monitorCharacteristicForService (deviceId service characteristic : string)
| device_readCharacteristicForService (deviceId service characteristic : string)
| bleManager_cancelDeviceConnection (deviceId : string).

(** Promises the screen waits on; each keeps what its continuation
    closes over. *)
Inductive Pending : Type :=
| AwaitPermissions
| AwaitConnect (deviceId : string)
| AwaitDiscover (connected : Device)
| AwaitRead (device : Device)
| AwaitCancel (deviceId : string).

Record World : Type := {
  ui : AppState;                       (* the React state *)
  calls : list Call;                   (* collaborator calls so far, oldest first *)
  scanListener : bool;                 (* a scan callback is installed in the manager *)
  timers : nat;                        (* scan timeouts armed and not yet fired *)
  pending : list Pending;              (* unsettled promises *)
  monitors : list (string * Channel);  (* notification callbacks registered, by device id *)
  uncaught : list Exception;           (* exceptions that left a callback *)
  effectClosure : option Device        (* connectedDevice captured by the installed effect cleanup *)
}.

Definition initialWorld : World := {|
  ui := initialState;
  calls := [];
  scanListener := false;
  timers := 0;
  pending := [];
  monitors := [];
  uncaught := [];
  effectClosure := None
|}.

(** ** A state monad with exceptions for callback bodies *)

Definition Js (A : Type) : Type := World -> Completion A * World.

Definition ret {A : Type} (a : A) : Js A := fun w => (Normal a, w).

Definition bind {A B : Type} (m : Js A) (k : A -> Js B) : Js B :=
  fun w =>
    match m w with
    | (Normal a, w') => k a w'
    | (Throw e, w') => (Throw e, w')
    end.

Definition lift {A : Type} (c : Completion A) : Js A := fun w => (c, w).

Declare Scope js_scope.
Delimit Scope js_scope with js.
Notation "x <- m ;; k" := (bind m (fun x => k))
  (at level 61, m at next level, right associativity) : js_scope.
Notation "m ;; k" := (bind m (fun _ => k))
  (at level 61, right associativity) : js_scope.
Local Open Scope js_scope.

(** The world after running a computation. *)
Definition exec {A : Type} (m : Js A) (w : World) : World := snd (m w).

(** Each primitive takes the world apart once and rebuilds it with one
    field changed. *)
Definition set_ui (f : AppState -> AppState) : Js unit :=
  fun w =>
    match w with
    | Build_World s c sl t p m u ec => (Normal tt, Build_World (f s) c sl t p m u ec)
    end.

Definition call (x : Call) : Js unit :=
  fun w =>
    match w with
    | Build_World s c sl t p m u ec => (Normal tt, Build_World s (c ++ [x]) sl t p m u ec)
    end.

Definition set_scanListener (b : bool) : Js unit :=
  fun w =>
    match w with
    | Build_World s c sl t p m u ec => (Normal tt, Build_World s c b t p m u ec)
    end.

Definition set_timers (f : nat -> nat) : Js unit :=
  fun w =>
    match w with
    | Build_World s c sl t p m u ec => (Normal tt, Build_World s c sl (f t) p m u ec)
    end.

Definition set_pending (f : list Pending -> list Pending) : Js unit :=
  fun w =>
    match w with
    | Build_World s c sl t p m u ec => (Normal tt, Build_World s c sl t (f p) m u ec)
    end.

Definition set_monitors (f : list (string * Channel) -> list (string * Channel)) : Js unit :=
  fun w =>
    match w with
    | Build_World s c sl t p m u ec => (Normal tt, Build_World s c sl t p (f m) u ec)
    end.

Definition set_uncaught (f : list Exception -> list Exception) : World -> World :=
  fun w =>
    match w with
    | Build_World s c sl t p m u ec => Build_World s c sl t p m (f u) ec
    end.

Definition set_effectClosure (d : option Device) : Js unit :=
  fun w =>
    match w with
    | Build_World s c sl t p m u ec => (Normal tt, Build_World s c sl t p m u d)
    end.

(** *** The state setters *)

Definition setAllDevices (f : list Device -> list Device) : Js unit :=
  set_ui (fun s =>
    match s with
    | Build_AppState a cd sc imu las wt did => Build_AppState (f a) cd sc imu las wt did
    end).

Definition setConnectedDevice (d : option Device) : Js unit :=
  set_ui (fun s =>
    match s with
    | Build_AppState a cd sc imu las wt did => Build_AppState a d sc imu las wt did
    end).

Definition setIsScanning (b : bool) : Js unit :=
  set_ui (fun s =>
    match s with
    | Build_AppState a cd sc imu las wt did => Build_AppState a cd b imu las wt did
    end).

Definition setImuData (floats : list number) : Js unit :=
  set_ui (fun s =>
    match s with
    | Build_AppState a cd sc imu las wt did => Build_AppState a cd sc floats las wt did
    end).

Definition setLaserData (floats : list number) : Js unit :=
  set_ui (fun s =>
    match s with
    | Build_AppState a cd sc imu las wt did => Build_AppState a cd sc imu floats wt did
    end).

Definition setWeightData (w : number) : Js unit :=
  set_ui (fun s =>
    match s with
    | Build_AppState a cd sc imu las wt did => Build_AppState a cd sc imu las w did
    end).

Definition setDeviceID (idStr : string) : Js unit :=
  set_ui (fun s =>
    match s with
    | Build_AppState a cd sc imu las wt did => Build_AppState a cd sc imu las wt idStr
    end).

(** *** The collaborators' methods *)

Definition stopDeviceScan : Js unit :=
  call bleManager_stopDeviceScan ;; set_scanListener false.

Definition startDeviceScan : Js unit :=
  call bleManager_startDeviceScan ;; set_scanListener true.

Definition setTimeout (ms : Z) : Js unit :=
  call (window_setTimeout ms) ;; set_timers S.

Definition await_ (p : Pending) : Js unit :=
  set_pending (fun l => l ++ [p]).

(** Equality tests for what the pending list and the registries hold. *)
Definition option_string_eqb (a b : option string) : bool :=
  match a, b with
  | Some x, Some y => (x =? y)%string
  | None, None => true
  | _, _ => false
  end.

Definition Device_eqb (a b : Device) : bool :=
  (id a =? id b)%string && option_string_eqb (name a) (name b).

Definition Channel_eqb (a b : Channel) : bool :=
  match a, b with
  | ImuChannel, ImuChannel => true
  | LaserChannel, LaserChannel => true
  | WeightChannel, WeightChannel => true
  | _, _ => false
  end.

Definition Pending_eqb (a b : Pending) : bool :=
  match a, b with
  | AwaitPermissions, AwaitPermissions => true
  | AwaitConnect x, AwaitConnect y => (x =? y)%string
  | AwaitDiscover x, AwaitDiscover y => Device_eqb x y
  | AwaitRead x, AwaitRead y => Device_eqb x y
  | AwaitCancel x, AwaitCancel y => (x =? y)%string
  | _, _ => false
  end.

Definition is_pending (p : Pending) (w : World) : bool :=
  existsb (Pending_eqb p) (pending w).

Fixpoint remove_first (p : Pending) (l : list Pending) : list Pending :=
  match l with
  | [] => []
  | q :: rest => if Pending_eqb p q then rest else q :: remove_first p rest
  end.

(** A promise settles: it leaves the pending list. *)
Definition settle_ (p : Pending) : Js unit := set_pending (remove_first p).

Definition monitorCharacteristicForService (device : Device) (c : Channel) : Js unit :=
  call (device_monitorCharacteristicForService (id device) SENSOR_SERVICE_UUID
          (characteristic_of c)) ;;
  set_monitors (fun l => l ++ [(id device, c)]).

(** ** The Buffer codecs

    [Buffer.from(text, "base64")] and [buffer.toString("utf-8")] belong
    to the buffer library; the screen is parametric in them. *)
Class BufferCodec : Type := {
  Buffer_from_base64 : string -> Buffer;
  Buffer_toString_utf8 : Buffer -> string
}.

(** [characteristic?.value] when it is truthy: the characteristic is
    not null and its value is neither null nor the empty string. *)
Definition truthy_value (characteristic : option Characteristic) : option string :=
  match characteristic with
  | Some c =>
      match value c with
      | Some v => if (v =? "")%string then None else Some v
      | None => None
      end
  | None => None
  end.

(** [prev.findIndex(p)]: the index of the first element that satisfies
    [p], or -1. *)
Fixpoint findIndex_from {A : Type} (p : A -> bool) (l : list A) (i : Z) : Z :=
  match l with
  | [] => (-1)%Z
  | x :: rest => if p x then i else findIndex_from p rest (i + 1)%Z
  end.

Definition findIndex {A : Type} (p : A -> bool) (l : list A) : Z :=
  findIndex_from p l 0%Z.

(** ** Permissions *)

Inductive PlatformOS : Type :=
| android
| ios
| web.

Inductive PermissionStatus : Type :=
| GRANTED
| DENIED
| NEVER_ASK_AGAIN.

Definition is_granted (s : PermissionStatus) : bool :=
  match s with
  | GRANTED => true
  | _ => false
  end.

(** What the platform answers when the permission promise resolves. *)
Record PermissionEnv : Type := {
  Platform_OS : PlatformOS;
  platformApiLevel : option Z;
  PermissionsAndroid_answer : Permission -> PermissionStatus
}.

Definition request (env : PermissionEnv) (p : Permission) : Js PermissionStatus :=
  call (PermissionsAndroid_request p) ;;
  ret (PermissionsAndroid_answer env p).

Definition requestAndroid12Permissions (env : PermissionEnv) : Js bool :=
  bluetoothScanPermission <- request env BLUETOOTH_SCAN ;;
  bluetoothConnectPermission <- request env BLUETOOTH_CONNECT ;;
  fineLocationPermission <- request env ACCESS_FINE_LOCATION ;;
  ret (is_granted bluetoothScanPermission
       && is_granted bluetoothConnectPermission
       && is_granted fineLocationPermission).

Definition requestPermissions (env : PermissionEnv) : Js bool :=
  match Platform_OS env with
  | android =>
      let apiLevel := match platformApiLevel env with Some l => l | None => (-1)%Z end in
      if (apiLevel <? 31)%Z then
        granted <- request env ACCESS_FINE_LOCATION ;;
        ret (is_granted granted)
      else requestAndroid12Permissions env
  | _ => ret true
  end.

(** ** The scanner *)

(** The callback given to [bleManager.startDeviceScan]. *)
Definition scanCallback (error : option BleError) (device : option Device) : Js unit :=
  match error with
  | Some _ =>
      call (console_log "Scan error:") ;;
      setIsScanning false
  | None =>
      match device with
      | Some device =>
          match name device with
          | Some n =>
              if (n =? DEVICE_LOCAL_NAME)%string then
                setAllDevices (fun prev =>
                  let alreadyInList :=
                    (findIndex (fun d => (id d =? id device)%string) prev >=? 0)%Z in
                  if negb alreadyInList then prev ++ [device] else prev)
              else ret tt
          | None => ret tt
          end
      | None => ret tt
      end
  end.

(** [scanForDevices] up to [await requestPermissions()]. *)
Definition scanForDevices : Js unit :=
  setIsScanning true ;;
  stopDeviceScan ;;
  await_ AwaitPermissions.

(** [scanForDevices] from the point where the permission promise has
    resolved to [hasPermission]. *)
Definition scanForDevices_resume (hasPermission : bool) : Js unit :=
  if negb hasPermission then
    call (console_log "BLE Permissions not granted!") ;;
    setIsScanning false
  else
    setAllDevices (fun _ => []) ;;
    startDeviceScan ;;
    setTimeout 10000.

(** [scanForDevices] across the [await]: the permission promise
    settles with what [requestPermissions] computes on [env], and the
    function resumes with it.  The [PermissionsAndroid.request] calls are
    recorded here, at the settlement, in the order the source makes them;
    the source issues the first one while the press is still running and
    each next one after the previous answer.  The platform's promises are
    taken to resolve. *)
Definition scanForDevices_resolved (env : PermissionEnv) : Js unit :=
  settle_ AwaitPermissions ;;
  hasPermission <- requestPermissions env ;;
  scanForDevices_resume hasPermission.

(** The body of the ten-second timer. *)
Definition scanTimeout : Js unit :=
  stopDeviceScan ;;
  setIsScanning false.

Section Screen.

Context {codec : BufferCodec}.

(** ** The notification callbacks *)

Definition imuMonitor (error : option BleError) (characteristic : option Characteristic)
  : Js unit :=
  match error with
  | Some _ => call (console_log "IMU Notify Error:")
  | None =>
      match truthy_value characteristic with
      | None => ret tt
      | Some v =>
          call (console_log "[IMU] Raw data (base64):") ;;
          let buffer := Buffer_from_base64 v in
          call (console_log "[IMU] Buffer length:") ;;
          call (console_log "[IMU] Buffer (hex):") ;;
          call (console_log "[IMU] Buffer as array:") ;;
          floats <- lift (parseFloats buffer) ;;
          setImuData floats
      end
  end.

Definition laserMonitor (error : option BleError) (characteristic : option Characteristic)
  : Js unit :=
  match error with
  | Some _ => call (console_log "Laser Notify Error:")
  | None =>
      match truthy_value characteristic with
      | None => ret tt
      | Some v =>
          let buffer := Buffer_from_base64 v in
          floats <- lift (parseFloats buffer) ;;
          setLaserData floats
      end
  end.

Definition weightMonitor (error : option BleError) (characteristic : option Characteristic)
  : Js unit :=
  match error with
  | Some _ => call (console_log "Weight Notify Error:")
  | None =>
      match truthy_value characteristic with
      | None => ret tt
      | Some v =>
          let buffer := Buffer_from_base64 v in
          if 4 <=? length buffer then
            w <- lift (readFloatLE buffer 0) ;;
            setWeightData w
          else ret tt
      end
  end.

Definition monitor (c : Channel) : option BleError -> option Characteristic -> Js unit :=
  match c with
  | ImuChannel => imuMonitor
  | LaserChannel => laserMonitor
  | WeightChannel => weightMonitor
  end.

(** [startNotifications]: the three subscriptions, in source order. *)
Definition startNotifications (device : Device) : Js unit :=
  monitorCharacteristicForService device ImuChannel ;;
  monitorCharacteristicForService device LaserChannel ;;
  monitorCharacteristicForService device WeightChannel.

(** ** The device-id read *)

(** [readDeviceID] up to its [await]. *)
Definition readDeviceID (device : Device) : Js unit :=
  call (device_readCharacteristicForService (id device) SENSOR_SERVICE_UUID
          DEVICE_ID_CHARACTERISTIC_UUID) ;;
  await_ (AwaitRead device).

(** [readDeviceID] once the read has settled: rejected with an error,
    or resolved with a characteristic. *)
Definition readDeviceID_resume (r : BleError + option Characteristic) : Js unit :=
  match r with
  | inl _ => call (console_log "Read Device ID error:")
  | inr characteristic =>
      match truthy_value characteristic with
      | Some v =>
          let buffer := Buffer_from_base64 v in
          let idStr := Buffer_toString_utf8 buffer in
          setDeviceID idStr
      | None => ret tt
      end
  end.

(** ** Connecting *)

(** [connectToDevice] up to [await bleManager.connectToDevice(device.id)]. *)
Definition connectToDevice (device : Device) : Js unit :=
  call (bleManager_connectToDevice (id device)) ;;
  await_ (AwaitConnect (id device)).

(** After the connect promise resolved with [connected], up to
    [await connected.discoverAllServicesAndCharacteristics()]. *)
Definition connectToDevice_connected (connected : Device) : Js unit :=
  setConnectedDevice (Some connected) ;;
  call (device_discoverAllServicesAndCharacteristics (id connected)) ;;
  await_ (AwaitDiscover connected).

(** After the discovery promise resolved. *)
Definition connectToDevice_discovered (connected : Device) : Js unit :=
  stopDeviceScan ;;
  startNotifications connected ;;
  readDeviceID connected.

(** The [catch] block. *)
Definition connectToDevice_catch (error : BleError) : Js unit :=
  call (console_log "Connection error:").

(** ** Disconnecting *)

(** [disconnectDevice] as the closure of a render whose
    [connectedDevice] was the first argument.  The promise of
    [cancelDeviceConnection] carries its own [catch]. *)
Definition disconnectDevice (connectedDevice : option Device) : Js unit :=
  match connectedDevice with
  | Some d =>
      call (bleManager_cancelDeviceConnection (id d)) ;;
      await_ (AwaitCancel (id d)) ;;
      setConnectedDevice None ;;
      setImuData [] ;;
      setLaserData [] ;;
      setWeightData 0%float ;;
      setDeviceID "N/A"
  | None => ret tt
  end.

(** The [catch] of the cancel promise. *)
Definition disconnectDevice_settled (r : option BleError) : Js unit :=
  match r with
  | Some _ => call (console_log "Disconnection error:")
  | None => ret tt
  end.

End Screen.

(** ** The sensor blocks of the connected view

    The contents of the blocks that sit inside the branch
    [connectedDevice ? (...) : (...)] of the JSX.  They are on screen only
    while a device is recorded as connected: [renderBody], further down,
    puts them under that test. *)

Inductive ImuView : Type :=
| ImuSensors (rows : list (list number))   (* one block per sub-sensor *)
| NoImuData.                               (* "No IMU data yet." *)

Inductive LaserView : Type :=
| LaserValues (vals : list number)
| NoLaserData.                             (* "No Laser data yet." *)

Inductive WeightView : Type :=
| WeightKg (w : number)                    (* weightData.toFixed(2) + " kg" *)
| NoWeightData.                            (* "No Weight data yet." *)

(** [imuData.length === 36 ? getImuMatrix().map(...) : ...] *)
Definition renderImu (s : AppState) : ImuView :=
  if length (imuData s) =? 36 then ImuSensors (getImuMatrix (imuData s)) else NoImuData.

(** [laserData.length === 4 ? laserData.map(...) : ...] *)
Definition renderLaser (s : AppState) : LaserView :=
  if length (laserData s) =? 4 then LaserValues (laserData s) else NoLaserData.

(** [weightData !== 0 ? ... : "No Weight data yet."]; [!==] on numbers
    is the negation of IEEE equality. *)
Definition renderWeight (s : AppState) : WeightView :=
  if negb (PrimFloat.eqb (weightData s) 0%float) then WeightKg (weightData s)
  else NoWeightData.

(** The text of the Device ID block. *)
Definition renderDeviceID (s : AppState) : string := deviceID s.

(** ** The asynchronous environment *)


Definition is_monitored (deviceId : string) (c : Channel) (w : World) : bool :=
  existsb (fun m => (fst m =? deviceId)%string && Channel_eqb (snd m) c) (monitors w).

(** What the services of a peripheral turned out to hold: pairs of
    service and characteristic identifiers. *)
Definition Discovery := list (string * string).

(** Everything that can call into the screen. *)
Inductive Event : Type :=
| PressScan                                             (* the Scan button *)
| PermissionsResolved (env : PermissionEnv)             (* requestPermissions() resolves *)
| ScanCallback (error : option BleError) (device : option Device)
| ScanTimeout                                           (* the 10 s timer fires *)
| PressDevice (device : Device)                         (* a row of the device list *)
| ConnectResolved (connected : Device)
| ConnectRejected (deviceId : string) (error : BleError)
| DiscoverResolved (connected : Device) (found : Discovery)
| DiscoverRejected (connected : Device) (error : BleError)
| Notify (deviceId : string) (c : Channel)
         (error : option BleError) (characteristic : option Characteristic)
| ReadSettled (device : Device) (r : BleError + option Characteristic)
| PressDisconnect                                       (* the Disconnect button *)
| CancelSettled (deviceId : string) (r : option BleError)
| EffectCleanup.                                        (* React runs the effect's cleanup *)

Definition isSome {A : Type} (o : option A) : bool :=
  match o with
  | Some _ => true
  | None => false
  end.

(** When the environment can deliver an event: a button needs to be on
    screen, a settlement needs its promise, a callback its registration. *)
Definition enabled (w : World) (e : Event) : bool :=
  match e with
  | PressScan => negb (isSome (connectedDevice (ui w))) && negb (isScanning (ui w))
  | PermissionsResolved _ => is_pending AwaitPermissions w
  | ScanCallback _ _ => scanListener w
  | ScanTimeout => 0 <? timers w
  | PressDevice device =>
      negb (isSome (connectedDevice (ui w))) && existsb (Device_eqb device) (allDevices (ui w))
  | ConnectResolved connected => is_pending (AwaitConnect (id connected)) w
  | ConnectRejected deviceId _ => is_pending (AwaitConnect deviceId) w
  | DiscoverResolved connected _ => is_pending (AwaitDiscover connected) w
  | DiscoverRejected connected _ => is_pending (AwaitDiscover connected) w
  | Notify deviceId c _ _ => is_monitored deviceId c w
  | ReadSettled device _ => is_pending (AwaitRead device) w
  | PressDisconnect => isSome (connectedDevice (ui w))
  | CancelSettled deviceId _ => is_pending (AwaitCancel deviceId) w
  | EffectCleanup => true
  end.

Section Machine.

Context {codec : BufferCodec}.

(** The code an event runs. *)
Definition fire (e : Event) : Js unit :=
  match e with
  | PressScan => scanForDevices
  | PermissionsResolved env => scanForDevices_resolved env
  | ScanCallback error device => scanCallback error device
  | ScanTimeout => set_timers pred ;; scanTimeout
  | PressDevice device => connectToDevice device
  | ConnectResolved connected =>
      settle_ (AwaitConnect (id connected)) ;;
      connectToDevice_connected connected
  | ConnectRejected deviceId error =>
      settle_ (AwaitConnect deviceId) ;;
      connectToDevice_catch error
  | DiscoverResolved connected _ =>
      settle_ (AwaitDiscover connected) ;;
      connectToDevice_discovered connected
  | DiscoverRejected connected error =>
      settle_ (AwaitDiscover connected) ;;
      connectToDevice_catch error
  | Notify _ c error characteristic => monitor c error characteristic
  | ReadSettled device r =>
      settle_ (AwaitRead device) ;;
      readDeviceID_resume r
  | PressDisconnect => fun w => disconnectDevice (connectedDevice (ui w)) w
  | CancelSettled deviceId r =>
      settle_ (AwaitCancel deviceId) ;;
      disconnectDevice_settled r
  | EffectCleanup =>
      fun w =>
        (set_effectClosure (connectedDevice (ui w)) ;;
         disconnectDevice (effectClosure w)) w
  end.

(** An exception that leaves a callback is recorded; the state changes
    made before it stay. *)
Definition finish (r : Completion unit * World) : World :=
  match r with
  | (Normal _, w) => w
  | (Throw e, w) => set_uncaught (fun l => l ++ [e]) w
  end.

Definition step (w : World) (e : Event) : World :=
  if enabled w e then finish (fire e w) else w.

Definition run (w : World) (events : list Event) : World :=
  fold_left step events w.

(** Every event of the list can be delivered when its turn comes. *)
Fixpoint deliverable (w : World) (events : list Event) : bool :=
  match events with
  | [] => true
  | e :: rest => enabled w e && deliverable (step w e) rest
  end.

End Machine.

(** ** A reference codec

    RFC 4648 base64, reading up to the first padding character and
    skipping characters outside the alphabet; like the buffer library it
    also reads the URL-safe '-' and '_' as 62 and 63.  [toString] is the
    library's UTF-8 decoder; a text is held here as the octets of its
    UTF-8 form, so a well-formed sequence is kept and an octet that
    starts none becomes U+FFFD (EF BF BD).  The examples below feed the
    codec well-formed base64 text and ASCII payloads. *)

Definition sextet (c : ascii) : option Z :=
  let n := Z.of_nat (nat_of_ascii c) in
  if (65 <=? n)%Z && (n <=? 90)%Z then Some (n - 65)%Z
  else if (97 <=? n)%Z && (n <=? 122)%Z then Some (n - 71)%Z
  else if (48 <=? n)%Z && (n <=? 57)%Z then Some (n + 4)%Z
  else if (n =? 43)%Z || (n =? 45)%Z then Some 62%Z
  else if (n =? 47)%Z || (n =? 95)%Z then Some 63%Z
  else None.

Fixpoint sextets (s : string) : list Z :=
  match s with
  | EmptyString => []
  | String c rest =>
      if (nat_of_ascii c =? 61) then []
      else match sextet c with
           | Some v => v :: sextets rest
           | None => sextets rest
           end
  end.

Definition byte_of_Z (z : Z) : byte :=
  match Byte.of_N (Z.to_N (Z.land z 255)) with
  | Some b => b
  | None => x00
  end.

Fixpoint octets_of_sextets (l : list Z) : Buffer :=
  match l with
  | a :: b :: c :: d :: rest =>
      let t := Z.lor (Z.shiftl a 18) (Z.lor (Z.shiftl b 12) (Z.lor (Z.shiftl c 6) d)) in
      byte_of_Z (Z.shiftr t 16) :: byte_of_Z (Z.shiftr t 8) :: byte_of_Z t
        :: octets_of_sextets rest
  | [a; b; c] =>
      let t := Z.lor (Z.shiftl a 10) (Z.lor (Z.shiftl b 4) (Z.shiftr c 2)) in
      [byte_of_Z (Z.shiftr t 8); byte_of_Z t]
  | [a; b] => [byte_of_Z (Z.lor (Z.shiftl a 2) (Z.shiftr b 4))]
  | _ => []
  end.

Definition base64_decode (s : string) : Buffer := octets_of_sextets (sextets s).

(** [(b & 0xC0) === 0x80] *)
Definition continuation (b : byte) : bool := (Z.land (octet b) 0xC0 =? 0x80)%Z.

Definition low6 (b : byte) : Z := Z.land (octet b) 0x3F.

(** The number of octets of the sequence that starts the buffer, as the
    decoder accepts it: 0 when the first octet starts no sequence (a
    continuation octet, a truncated or overlong sequence, a surrogate, a
    code point above 0x10FFFF). *)
Definition sequenceLength (buf : Buffer) : nat :=
  match buf with
  | [] => 0
  | b0 :: rest =>
      let firstByte := octet b0 in
      if (firstByte >? 0xEF)%Z then
        match rest with
        | b1 :: b2 :: b3 :: _ =>
            if continuation b1 && continuation b2 && continuation b3 then
              let tempCodePoint :=
                Z.lor (Z.shiftl (Z.land firstByte 0xF) 0x12)
                  (Z.lor (Z.shiftl (low6 b1) 0xC) (Z.lor (Z.shiftl (low6 b2) 0x6) (low6 b3))) in
              if (tempCodePoint >? 0xFFFF)%Z && (tempCodePoint <? 0x110000)%Z then 4 else 0
            else 0
        | _ => 0
        end
      else if (firstByte >? 0xDF)%Z then
        match rest with
        | b1 :: b2 :: _ =>
            if continuation b1 && continuation b2 then
              let tempCodePoint :=
                Z.lor (Z.shiftl (Z.land firstByte 0xF) 0xC)
                  (Z.lor (Z.shiftl (low6 b1) 0x6) (low6 b2)) in
              if (tempCodePoint >? 0x7FF)%Z
                 && ((tempCodePoint <? 0xD800)%Z || (tempCodePoint >? 0xDFFF)%Z)
              then 3 else 0
            else 0
        | _ => 0
        end
      else if (firstByte >? 0xBF)%Z then
        match rest with
        | b1 :: _ =>
            if continuation b1 then
              let tempCodePoint := Z.lor (Z.shiftl (Z.land firstByte 0x1F) 0x6) (low6 b1) in
              if (tempCodePoint >? 0x7F)%Z then 2 else 0
            else 0
        | _ => 0
        end
      else if (firstByte <? 0x80)%Z then 1 else 0
  end.

(** [remaining] octets of an accepted sequence are still to be copied. *)
Fixpoint utf8Slice_from (buf : Buffer) (remaining : nat) : list byte :=
  match buf with
  | [] => []
  | b :: rest =>
      match remaining with
      | S k => b :: utf8Slice_from rest k
      | O =>
          match sequenceLength buf with
          | O => xef :: xbf :: xbd :: utf8Slice_from rest 0
          | S k => b :: utf8Slice_from rest k
          end
      end
  end.

Definition utf8Slice (buf : Buffer) : string := string_of_list_byte (utf8Slice_from buf 0).

#[export] Instance reference_codec : BufferCodec := {|
  Buffer_from_base64 := base64_decode;
  Buffer_toString_utf8 := utf8Slice
|}.

(** Unfolds the monad and the primitives of the world. *)
Ltac js_unfold :=
  cbn [exec bind ret lift call set_ui set_scanListener set_timers set_pending
       set_monitors set_effectClosure setAllDevices setConnectedDevice setIsScanning
       setImuData setLaserData setWeightData setDeviceID stopDeviceScan
       startDeviceScan setTimeout await_ settle_ monitorCharacteristicForService
       fst snd ui calls scanListener timers pending monitors uncaught effectClosure
       allDevices connectedDevice isScanning imuData laserData weightData deviceID].

(** Takes the world (and its React state) apart, so that the primitives
    compute. *)
Ltac open_world w := destruct w as [[? ? ? ? ? ? ?] ? ? ? ? ? ? ?].

(** ** Reading the model *)

(** The float32 at [offset, offset+4) of a buffer, by index. *)
Definition float32_at (buffer : Buffer) (offset : nat) : number :=
  float32_of_bits
    (word32LE (nth offset buffer x00) (nth (offset + 1) buffer x00)
              (nth (offset + 2) buffer x00) (nth (offset + 3) buffer x00)).

(** The floats of a buffer at offsets 0, 4, ..., 4(n-1). *)
Definition floats_of (buffer : Buffer) (n : nat) : list number :=
  map (fun k => float32_at buffer (4 * k)) (seq 0 n).

(** The four sensor slots of the React state. *)
Definition sensorStore (s : AppState) : list number * list number * number * string :=
  (imuData s, laserData s, weightData s, deviceID s).

(** A characteristic that carries the base64 text [v]. *)
Definition payload (v : string) : option Characteristic := Some {| value := Some v |}.

(** The candidate list is well formed: no device id occurs twice and
    every entry advertises the filter name. *)
Definition candidates_ok (l : list Device) : Prop :=
  NoDup (map id l) /\ Forall (fun d => name d = Some DEVICE_LOCAL_NAME) l.

(** One scan session: the permission was granted, the list was emptied
    and the scan started; then the manager delivers [cbs], the arguments
    of successive calls of the scan callback. *)
Definition scanSession (cbs : list (option BleError * option Device)) (w : World) : World :=
  fold_left (fun w cb => exec (scanCallback (fst cb) (snd cb)) w) cbs
    (exec (scanForDevices_resume true) w).

(** What [requestPermissions] resolves to on [env]. *)
Definition hasPermission (env : PermissionEnv) : bool :=
  match fst (requestPermissions env initialWorld) with
  | Normal b => b
  | Throw _ => false
  end.

(** ** Sample data *)

Definition neuraLoad : Device := {| id := "B8:27:EB:00:00:01"; name := Some DEVICE_LOCAL_NAME |}.

(** iOS: [requestPermissions] answers true without asking. *)
Definition env_ios : PermissionEnv :=
  {| Platform_OS := ios; platformApiLevel := None;
     PermissionsAndroid_answer := fun _ => GRANTED |}.

(** Android 13 where the user refuses the scan permission. *)
Definition env_denied : PermissionEnv :=
  {| Platform_OS := android; platformApiLevel := Some 33%Z;
     PermissionsAndroid_answer :=
       fun p => match p with BLUETOOTH_SCAN => DENIED | _ => GRANTED end |}.

(** 00 00 80 3F: the float32 1.0, little-endian. *)
Definition one_b64 : string := "AACAPw==".

(** 00 00 80 3F followed by 140 zero octets. *)
Definition imu_one_buffer : Buffer := [x00; x00; x80; x3f] ++ repeat x00 140.

Definition imu_one_b64 : string :=
  "AACAPwAAAAAAAAAAAAAAAAAAAAAAAAAAAAAAAAAAAAAAAAAAAAAAAAAAAAAAAAAAAAAAAAAAAAAAAAAAAAAAAAAAAAAAAAAAAAAAAAAAAAAAAAAAAAAAAAAAAAAAAAAAAAAAAAAAAAAAAAAAAAAAAAAAAAAAAAAAAAAAAAAAAAAAAAAAAAAAAAAAAAAAAAAA".

(** The sensor service with its four characteristics. *)
Definition full_discovery : Discovery :=
  [(SENSOR_SERVICE_UUID, IMU_CHARACTERISTIC_UUID);
   (SENSOR_SERVICE_UUID, LASER_CHARACTERISTIC_UUID);
   (SENSOR_SERVICE_UUID, WEIGHT_CHARACTERISTIC_UUID);
   (SENSOR_SERVICE_UUID, DEVICE_ID_CHARACTERISTIC_UUID)].

Definition neuraLoad2 : Device := {| id := "B8:27:EB:00:00:02"; name := Some DEVICE_LOCAL_NAME |}.

(** "NeuraLoad-01" in base64. *)
Definition id_b64 : string := "TmV1cmFMb2FkLTAx".

(** A session up to Ready, a press on Disconnect, and then a weight
    notification and the answer to the device-id read that were under
    way when the button was pressed. *)
Definition late_arrivals : list Event :=
  [PressScan; PermissionsResolved env_ios; ScanCallback None (Some neuraLoad);
   PressDevice neuraLoad; ConnectResolved neuraLoad; EffectCleanup;
   DiscoverResolved neuraLoad full_discovery;
   PressDisconnect; EffectCleanup;
   Notify (id neuraLoad) WeightChannel None (payload one_b64);
   ReadSettled neuraLoad (inr (payload id_b64))].

(** Two peripherals are listed and both rows are pressed; the first
    connect resolves. *)
Definition two_connects : list Event :=
  [PressScan; PermissionsResolved env_ios;
   ScanCallback None (Some neuraLoad); ScanCallback None (Some neuraLoad2);
   PressDevice neuraLoad; PressDevice neuraLoad2;
   ConnectResolved neuraLoad; EffectCleanup].

(** After [two_connects]: Disconnect is pressed, and only then the
    second connect resolves, is discovered and notifies a weight. *)
Definition stale_completion : list Event :=
  [PressDisconnect; EffectCleanup;
   ConnectResolved neuraLoad2; EffectCleanup;
   DiscoverResolved neuraLoad2 full_discovery;
   Notify (id neuraLoad2) WeightChannel None (payload one_b64)].

(** A session whose peripheral turns out to hold no service at all. *)
Definition empty_discovery : list Event :=
  [PressScan; PermissionsResolved env_ios; ScanCallback None (Some neuraLoad);
   PressDevice neuraLoad; ConnectResolved neuraLoad; EffectCleanup;
   DiscoverResolved neuraLoad []].

(** ** The device list of the screen

<<
    <FlatList data={allDevices} keyExtractor={(item) => item.id}
      renderItem={({ item }) => ( ...
          {item.name || "Unnamed"} ({item.id}) ... )} />
>> *)

(** [a || fallback] on a [string | null]: null and the empty string are
    falsy. *)
Definition string_or (a : option string) (fallback : string) : string :=
  match a with
  | Some x => if (x =? "")%string then fallback else x
  | None => fallback
  end.

Definition keyExtractor (item : Device) : string := id item.

(** The text of a row. *)
Definition renderItem (item : Device) : string :=
  (string_or (name item) "Unnamed" ++ " (" ++ id item ++ ")")%string.

(** ** [byteArrayToFloat32] of the earlier revision

<<
    const buffer = new ArrayBuffer(4);
    const view = new DataView(buffer);
    bytes.forEach((b, i) => view.setUint8(i, b));
    return view.getFloat32(0, true);
>>
    The elements of [bytes] are taken as integers; [setUint8] stores
    them modulo 256. *)

(** [view.setUint8(byteOffset, value)]: a [RangeError] outside the view. *)
Definition setUint8 (view : Buffer) (byteOffset : nat) (value : Z) : Completion Buffer :=
  if byteOffset <? length view
  then Normal (firstn byteOffset view ++ byte_of_Z value :: skipn (S byteOffset) view)
  else Throw RangeError.

(** [view.getFloat32(byteOffset, true)]. *)
Definition getFloat32LE (view : Buffer) (byteOffset : nat) : Completion number :=
  match skipn byteOffset view with
  | b0 :: b1 :: b2 :: b3 :: _ => Normal (float32_of_bits (word32LE b0 b1 b2 b3))
  | _ => Throw RangeError
  end.

(** [bytes.forEach((b, i) => view.setUint8(i, b))] from index [i] on. *)
Fixpoint forEach_setUint8 (bytes : list Z) (i : nat) (view : Buffer) : Completion Buffer :=
  match bytes with
  | [] => Normal view
  | b :: rest =>
      match setUint8 view i b with
      | Normal view' => forEach_setUint8 rest (S i) view'
      | Throw e => Throw e
      end
  end.

Definition byteArrayToFloat32 (bytes : list Z) : Completion number :=
  match forEach_setUint8 bytes 0 [x00; x00; x00; x00] with
  | Normal view => getFloat32LE view 0
  | Throw e => Throw e
  end.

(** The API level [requestPermissions] compares with 31:
    [ExpoDevice.platformApiLevel ?? -1]. *)
Definition apiLevel_of (env : PermissionEnv) : Z :=
  match platformApiLevel env with
  | Some l => l
  | None => (-1)%Z
  end.

(** ** The whole screen

<<
    {!connectedDevice ? (
      <Button title={isScanning ? "Scanning..." : "Scan for NeuraLoad"}
              onPress={scanForDevices} disabled={isScanning} />
    ) : (
      <Button title="Disconnect" onPress={disconnectDevice} />
    )}
    {connectedDevice ? (
      <ScrollView> Connected to: {connectedDevice.name || connectedDevice.id}
        ... Device ID, IMU, Laser and Weight blocks ... </ScrollView>
    ) : (
      <View> Scanned Devices
        {allDevices.length === 0 && <Text>No devices found</Text>}
        <FlatList ... /> </View>
    )}
>> *)

Inductive Button : Type :=
| ScanButton (title : string) (disabled : bool)
| DisconnectButton.

Inductive Body : Type :=
| SensorBlocks (connectedTo : string) (deviceIDText : string)
               (imu : ImuView) (laser : LaserView) (weight : WeightView)
| ScannedDevices (noDevicesFound : bool) (rows : list (string * string)).

Definition renderButton (s : AppState) : Button :=
  match connectedDevice s with
  | None => ScanButton (if isScanning s then "Scanning..." else "Scan for NeuraLoad")
                       (isScanning s)
  | Some _ => DisconnectButton
  end.

(** The rows of the list: key and text. *)
Definition renderRows (s : AppState) : list (string * string) :=
  map (fun item => (keyExtractor item, renderItem item)) (allDevices s).

Definition renderBody (s : AppState) : Body :=
  match connectedDevice s with
  | Some d =>
      SensorBlocks (string_or (name d) (id d)) (renderDeviceID s)
                   (renderImu s) (renderLaser s) (renderWeight s)
  | None => ScannedDevices (length (allDevices s) =? 0) (renderRows s)
  end.

(** The IMU, Laser and Weight blocks on screen, if the sensor blocks are
    what the screen shows. *)
Definition shownImu (b : Body) : option ImuView :=
  match b with
  | SensorBlocks _ _ imu _ _ => Some imu
  | ScannedDevices _ _ => None
  end.

Definition shownLaser (b : Body) : option LaserView :=
  match b with
  | SensorBlocks _ _ _ laser _ => Some laser
  | ScannedDevices _ _ => None
  end.


(** ** The earlier revision of the screen (BleTest.tsx)

    Its IMU callback is the one above without the four [console.log]
    lines; its connected view shows the IMU and Laser floats joined
    whenever there are any:
<<
    {imuData.length > 0 ? imuData.join(", ") : "No IMU data yet"}
    {laserData.length > 0 ? laserData.join(", ") : "No Laser data yet"}
>> *)

Inductive JoinedView : Type :=
| Joined (vals : list number)              (* vals.join(", ") *)
| NoDataYet.                               (* "No IMU data yet" / "No Laser data yet" *)

Inductive Body_earlier : Type :=
| SensorTexts (connectedTo : string) (imu : JoinedView) (laser : JoinedView)
| ScannedDevices_earlier (noDevicesFound : bool) (rows : list (string * string)).

Definition renderBody_earlier (s : AppState) : Body_earlier :=
  match connectedDevice s with
  | Some d =>
      SensorTexts (string_or (name d) (id d))
                  (if 0 <? length (imuData s) then Joined (imuData s) else NoDataYet)
                  (if 0 <? length (laserData s) then Joined (laserData s) else NoDataYet)
  | None => ScannedDevices_earlier (length (allDevices s) =? 0) (renderRows s)
  end.

Definition shownImu_earlier (b : Body_earlier) : option JoinedView :=
  match b with
  | SensorTexts _ imu _ => Some imu
  | ScannedDevices_earlier _ _ => None
  end.

Section EarlierRevision.

Context {codec : BufferCodec}.

Definition imuMonitor_earlier
           (error : option BleError) (characteristic : option Characteristic) : Js unit :=
  match error with
  | Some _ => call (console_log "IMU Notify Error:")
  | None =>
      match truthy_value characteristic with
      | None => ret tt
      | Some v =>
          let buffer := Buffer_from_base64 v in
          floats <- lift (parseFloats buffer) ;;
          setImuData floats
      end
  end.

End EarlierRevision.

(** A session up to the point where the device is connected, discovered
    and subscribed. *)
Definition ready_session : list Event :=
  [PressScan; PermissionsResolved env_ios; ScanCallback None (Some neuraLoad);
   PressDevice neuraLoad; ConnectResolved neuraLoad; EffectCleanup;
   DiscoverResolved neuraLoad full_discovery].

(** * Properties *)

Example base64_one : base64_decode one_b64 = [x00; x00; x80; x3f].
Proof. reflexivity. Qed.

Example base64_imu_one : base64_decode imu_one_b64 = imu_one_buffer.
Proof. vm_compute. reflexivity. Qed.

Example base64_text :
  utf8Slice (base64_decode "TmV1cmFMb2FkLTAx") = "NeuraLoad-01"%string.
Proof. reflexivity. Qed.

Example base64_url_safe :
  base64_decode "-_-_" = [xfb; xff; xbf] /\ base64_decode "+/+/" = [xfb; xff; xbf].
Proof. split; reflexivity. Qed.

(** "e acute" (C3 A9) is kept; a lone FF, a truncated C3 and the overlong
    C0 80 become U+FFFD, one per octet. *)
Example utf8Slice_samples :
  utf8Slice [x41; xc3; xa9; x42] = string_of_list_byte [x41; xc3; xa9; x42]
  /\ utf8Slice [x41; xff; x42] = string_of_list_byte [x41; xef; xbf; xbd; x42]
  /\ utf8Slice [xc3] = string_of_list_byte [xef; xbf; xbd]
  /\ utf8Slice [xc0; x80]
     = string_of_list_byte [xef; xbf; xbd; xef; xbf; xbd]
  /\ utf8Slice [xf0; x9f; x98; x80] = string_of_list_byte [xf0; x9f; x98; x80]
  /\ utf8Slice [xed; xa0; x80]
     = string_of_list_byte [xef; xbf; xbd; xef; xbf; xbd; xef; xbf; xbd].
Proof. repeat split; reflexivity. Qed.

Example float32_one : float32_of_bits 0x3F800000 = 1%float.
Proof. reflexivity. Qed.

Example float32_samples :
  float32_of_bits 0xBF000000 = (-0.5)%float
  /\ float32_of_bits 0x42F6E979 = 0x1.edd2f2p+6%float
  /\ float32_of_bits 0x00000000 = 0%float
  /\ float32_of_bits 0x80000000 = (-0)%float
  /\ float32_of_bits 0x00000001 = Z.ldexp 1%float (-149)
  /\ float32_of_bits 0x7F800000 = infinity
  /\ float32_of_bits 0xFF800000 = neg_infinity
  /\ float32_of_bits 0x7FC00000 = nan.
Proof. repeat split. Qed.

Example readFloatLE_order :
  readFloatLE [x00; x00; x80; x3f] 0 = Normal 1%float
  /\ readFloatLE [xff; x00; x00; x80; x3f] 1 = Normal 1%float
  /\ readFloatLE [x00; x00; x80; x3f] 1 = Throw RangeError.
Proof. repeat split. Qed.

(** ** Buffer reads *)

Lemma nth_skipn_add {A : Type} (l : list A) (n k : nat) (d : A) :
  nth k (skipn n l) d = nth (n + k) l d.
Proof.
  revert l; induction n as [|n IH]; intros l; simpl.
  - reflexivity.
  - destruct l as [|x l]; simpl.
    + destruct k; reflexivity.
    + apply IH.
Qed.

Lemma readFloatLE_in_bounds (buffer : Buffer) (offset : nat) :
  offset + 4 <= length buffer ->
  readFloatLE buffer offset = Normal (float32_at buffer offset).
Proof.
  intros H. unfold readFloatLE, float32_at.
  rewrite <- (Nat.add_0_r offset) at 2.
  rewrite <- !nth_skipn_add.
  pose proof (length_skipn offset buffer) as L.
  destruct (skipn offset buffer) as [|b0 [|b1 [|b2 [|b3 rest]]]]; simpl in L; try lia.
  reflexivity.
Qed.

Lemma readFloatLE_out_of_bounds (buffer : Buffer) (offset : nat) :
  length buffer < offset + 4 ->
  readFloatLE buffer offset = Throw RangeError.
Proof.
  intros H. unfold readFloatLE.
  pose proof (length_skipn offset buffer) as L.
  destruct (skipn offset buffer) as [|b0 [|b1 [|b2 [|b3 rest]]]]; simpl in L;
    try reflexivity; lia.
Qed.

(** ** The parse loop, one iteration at a time *)

Lemma parseLoop_done (buffer : Buffer) (i : nat) (floats : list number) :
  length buffer <= i -> parseLoop buffer i floats = Normal floats.
Proof.
  intros H. rewrite parseLoop_equation_1.
  destruct (lt_dec i (length buffer)); [lia | reflexivity].
Qed.

Lemma parseLoop_step (buffer : Buffer) (i : nat) (floats : list number) :
  i + 4 <= length buffer ->
  parseLoop buffer i floats
  = parseLoop buffer (i + 4) (floats ++ [float32_at buffer i]).
Proof.
  intros H. rewrite parseLoop_equation_1.
  destruct (lt_dec i (length buffer)); [|lia]. simpl.
  rewrite (readFloatLE_in_bounds buffer i H). reflexivity.
Qed.

Lemma parseLoop_throw (buffer : Buffer) (i : nat) (floats : list number) :
  i < length buffer -> length buffer < i + 4 ->
  parseLoop buffer i floats = Throw RangeError.
Proof.
  intros H1 H2. rewrite parseLoop_equation_1.
  destruct (lt_dec i (length buffer)); [|lia]. simpl.
  rewrite (readFloatLE_out_of_bounds buffer i H2). reflexivity.
Qed.

Lemma parseLoop_multiple (n : nat) :
  forall (buffer : Buffer) (i : nat) (floats : list number),
    length buffer = i + 4 * n ->
    parseLoop buffer i floats
    = Normal (floats ++ map (fun k => float32_at buffer (i + 4 * k)) (seq 0 n)).
Proof.
  induction n as [|n IH]; intros buffer i floats L.
  - rewrite parseLoop_done by lia. simpl. now rewrite app_nil_r.
  - rewrite parseLoop_step by lia.
    rewrite (IH buffer (i + 4) _) by lia.
    rewrite <- app_assoc. simpl. f_equal. f_equal.
    rewrite Nat.add_0_r. f_equal.
    rewrite <- seq_shift, map_map.
    apply map_ext. intros k. f_equal. lia.
Qed.

Lemma parseLoop_ragged (n : nat) :
  forall (buffer : Buffer) (i r : nat) (floats : list number),
    0 < r < 4 ->
    length buffer = i + 4 * n + r ->
    parseLoop buffer i floats = Throw RangeError.
Proof.
  induction n as [|n IH]; intros buffer i r floats R L.
  - apply parseLoop_throw; lia.
  - rewrite parseLoop_step by lia.
    apply (IH buffer (i + 4) r); lia.
Qed.

Lemma parseFloats_multiple (buffer : Buffer) :
  length buffer mod 4 = 0 ->
  parseFloats buffer = Normal (floats_of buffer (length buffer / 4)).
Proof.
  intros M. unfold parseFloats, floats_of.
  rewrite (parseLoop_multiple (length buffer / 4) buffer 0 []).
  - reflexivity.
  - pose proof (Nat.div_mod_eq (length buffer) 4). lia.
Qed.

Lemma parseFloats_ragged (buffer : Buffer) :
  length buffer mod 4 <> 0 ->
  parseFloats buffer = Throw RangeError.
Proof.
  intros M. unfold parseFloats.
  apply (parseLoop_ragged (length buffer / 4) buffer 0 (length buffer mod 4)).
  - pose proof (Nat.mod_upper_bound (length buffer) 4). lia.
  - pose proof (Nat.div_mod_eq (length buffer) 4). lia.
Qed.

Lemma floats_of_length (buffer : Buffer) (n : nat) : length (floats_of buffer n) = n.
Proof. unfold floats_of. now rewrite length_map, length_seq. Qed.

(** ** The callbacks on a payload *)

Lemma truthy_payload (v : string) : v <> ""%string -> truthy_value (payload v) = Some v.
Proof.
  intros H. unfold truthy_value, payload. simpl.
  destruct (String.eqb_spec v ""); [contradiction | reflexivity].
Qed.

Lemma imuData_setImuData (floats : list number) (w : World) :
  imuData (ui (exec (setImuData floats) w)) = floats.
Proof. open_world w. reflexivity. Qed.

Lemma laserData_setLaserData (floats : list number) (w : World) :
  laserData (ui (exec (setLaserData floats) w)) = floats.
Proof. open_world w. reflexivity. Qed.

Lemma weightData_setWeightData (x : number) (w : World) :
  weightData (ui (exec (setWeightData x) w)) = x.
Proof. open_world w. reflexivity. Qed.

Lemma connectedDevice_setWeightData (x : number) (w : World) :
  connectedDevice (ui (exec (setWeightData x) w)) = connectedDevice (ui w).
Proof. open_world w. reflexivity. Qed.

Section Decoding.

Context {codec : BufferCodec}.

Lemma imuMonitor_payload (v : string) (w : World) :
  v <> ""%string ->
  (fst (imuMonitor None (payload v) w)
   = match parseFloats (Buffer_from_base64 v) with
     | Normal _ => Normal tt
     | Throw e => Throw e
     end)
  /\ (ui (exec (imuMonitor None (payload v)) w)
      = match parseFloats (Buffer_from_base64 v) with
        | Normal floats => ui (exec (setImuData floats) w)
        | Throw _ => ui w
        end).
Proof.
  intros H. unfold imuMonitor. rewrite (truthy_payload v H).
  open_world w. js_unfold. destruct (parseFloats (Buffer_from_base64 v)); simpl; auto.
Qed.

Lemma laserMonitor_payload (v : string) (w : World) :
  v <> ""%string ->
  (fst (laserMonitor None (payload v) w)
   = match parseFloats (Buffer_from_base64 v) with
     | Normal _ => Normal tt
     | Throw e => Throw e
     end)
  /\ (ui (exec (laserMonitor None (payload v)) w)
      = match parseFloats (Buffer_from_base64 v) with
        | Normal floats => ui (exec (setLaserData floats) w)
        | Throw _ => ui w
        end).
Proof.
  intros H. unfold laserMonitor. rewrite (truthy_payload v H).
  open_world w. js_unfold. destruct (parseFloats (Buffer_from_base64 v)); simpl; auto.
Qed.

Lemma imuMonitor_multiple (v : string) (w : World) :
  v <> ""%string ->
  length (Buffer_from_base64 v) mod 4 = 0 ->
  imuMonitor None (payload v) w = (Normal tt, exec (imuMonitor None (payload v)) w)
  /\ imuData (ui (exec (imuMonitor None (payload v)) w))
     = floats_of (Buffer_from_base64 v) (length (Buffer_from_base64 v) / 4).
Proof.
  intros H M.
  destruct (imuMonitor_payload v w H) as [I1 I2].
  rewrite (parseFloats_multiple _ M) in *.
  split.
  - unfold exec. rewrite (surjective_pairing (imuMonitor None (payload v) w)) at 1.
    now rewrite I1.
  - rewrite I2. apply imuData_setImuData.
Qed.

Lemma imuMonitor_ragged (v : string) (w : World) :
  v <> ""%string ->
  length (Buffer_from_base64 v) mod 4 <> 0 ->
  fst (imuMonitor None (payload v) w) = Throw RangeError
  /\ ui (exec (imuMonitor None (payload v)) w) = ui w.
Proof.
  intros H M.
  destruct (imuMonitor_payload v w H) as [I1 I2].
  rewrite (parseFloats_ragged _ M) in *.
  split; assumption.
Qed.

Lemma laserMonitor_multiple (v : string) (w : World) :
  v <> ""%string ->
  length (Buffer_from_base64 v) mod 4 = 0 ->
  laserMonitor None (payload v) w = (Normal tt, exec (laserMonitor None (payload v)) w)
  /\ laserData (ui (exec (laserMonitor None (payload v)) w))
     = floats_of (Buffer_from_base64 v) (length (Buffer_from_base64 v) / 4).
Proof.
  intros H M.
  destruct (laserMonitor_payload v w H) as [I1 I2].
  rewrite (parseFloats_multiple _ M) in *.
  split.
  - unfold exec. rewrite (surjective_pairing (laserMonitor None (payload v) w)) at 1.
    now rewrite I1.
  - rewrite I2. apply laserData_setLaserData.
Qed.

Lemma laserMonitor_ragged (v : string) (w : World) :
  v <> ""%string ->
  length (Buffer_from_base64 v) mod 4 <> 0 ->
  fst (laserMonitor None (payload v) w) = Throw RangeError
  /\ ui (exec (laserMonitor None (payload v)) w) = ui w.
Proof.
  intros H M.
  destruct (laserMonitor_payload v w H) as [I1 I2].
  rewrite (parseFloats_ragged _ M) in *.
  split; assumption.
Qed.

(** C9. The parse loop of the IMU and Laser callbacks reads a float32 at
    every offset 0, 4, 8, ... below the buffer length.  When the length
    is a multiple of 4 every such read fits in the buffer and the loop
    returns length/4 floats, which both callbacks store.  When it is not,
    the read at the last offset runs past the end: it raises a
    [RangeError], the loop returns nothing, and both callbacks end in
    that exception with the React state untouched. *)
Theorem parse_loop_bounds (v : string) (w : World) :
  v <> ""%string ->
  (length (Buffer_from_base64 v) mod 4 = 0 ->
     (forall offset, offset mod 4 = 0 -> offset < length (Buffer_from_base64 v) ->
        offset + 4 <= length (Buffer_from_base64 v)
        /\ readFloatLE (Buffer_from_base64 v) offset
           = Normal (float32_at (Buffer_from_base64 v) offset))
     /\ (exists floats,
           parseFloats (Buffer_from_base64 v) = Normal floats
           /\ length floats = length (Buffer_from_base64 v) / 4
           /\ floats = floats_of (Buffer_from_base64 v) (length (Buffer_from_base64 v) / 4)
           /\ imuMonitor None (payload v) w
              = (Normal tt, exec (imuMonitor None (payload v)) w)
           /\ imuData (ui (exec (imuMonitor None (payload v)) w)) = floats
           /\ laserMonitor None (payload v) w
              = (Normal tt, exec (laserMonitor None (payload v)) w)
           /\ laserData (ui (exec (laserMonitor None (payload v)) w)) = floats))
  /\ (length (Buffer_from_base64 v) mod 4 <> 0 ->
        4 * (length (Buffer_from_base64 v) / 4) < length (Buffer_from_base64 v)
        /\ length (Buffer_from_base64 v) < 4 * (length (Buffer_from_base64 v) / 4) + 4
        /\ readFloatLE (Buffer_from_base64 v) (4 * (length (Buffer_from_base64 v) / 4))
           = Throw RangeError
        /\ parseFloats (Buffer_from_base64 v) = Throw RangeError
        /\ fst (imuMonitor None (payload v) w) = Throw RangeError
        /\ ui (exec (imuMonitor None (payload v)) w) = ui w
        /\ fst (laserMonitor None (payload v) w) = Throw RangeError
        /\ ui (exec (laserMonitor None (payload v)) w) = ui w).
Proof.
  intros H.
  set (buffer := Buffer_from_base64 v).
  pose proof (Nat.div_mod_eq (length buffer) 4) as D.
  pose proof (Nat.mod_upper_bound (length buffer) 4) as U.
  split; intros M.
  - destruct (imuMonitor_multiple v w H M) as [I1 I2].
    destruct (laserMonitor_multiple v w H M) as [L1 L2].
    split.
    + intros offset O B.
      pose proof (Nat.div_mod_eq offset 4) as DO.
      assert (offset + 4 <= length buffer) as F by lia.
      split; [exact F | now apply readFloatLE_in_bounds].
    + exists (floats_of buffer (length buffer / 4)).
      repeat split; try assumption.
      * now apply parseFloats_multiple.
      * apply floats_of_length.
  - destruct (imuMonitor_ragged v w H M) as [I1 I2].
    destruct (laserMonitor_ragged v w H M) as [L1 L2].
    repeat split; try assumption; try lia.
    + apply readFloatLE_out_of_bounds. lia.
    + now apply parseFloats_ragged.
Qed.

End Decoding.

Lemma parse_loop_bounds_witness :
  (exists floats,
     parseFloats (Buffer_from_base64 one_b64) = Normal floats /\ length floats = 1)
  /\ parseFloats (Buffer_from_base64 "AACAPwA=") = Throw RangeError.
Proof.
  split.
  - destruct (parse_loop_bounds one_b64 initialWorld) as [A _]; [discriminate|].
    destruct (A eq_refl) as [_ [floats [P [L _]]]].
    exists floats. split; [exact P | exact L].
  - destruct (parse_loop_bounds "AACAPwA=" initialWorld) as [_ B]; [discriminate|].
    destruct B as [_ [_ [_ [P _]]]]; [simpl; discriminate | exact P].
Defined.

(** ** [getImuMatrix], one iteration at a time *)

Lemma matrixLoop_done (imuData : list number) (i : nat) (matrix : list (list number)) :
  length imuData <= i -> matrixLoop imuData i matrix = matrix.
Proof.
  intros H. rewrite matrixLoop_equation_1.
  destruct (lt_dec i (length imuData)); [lia | reflexivity].
Qed.

Lemma matrixLoop_step (imuData : list number) (i : nat) (matrix : list (list number)) :
  i < length imuData ->
  matrixLoop imuData i matrix
  = matrixLoop imuData (i + 9) (matrix ++ [slice imuData i (i + 9)]).
Proof.
  intros H. rewrite matrixLoop_equation_1.
  destruct (lt_dec i (length imuData)); [reflexivity | lia].
Qed.

Lemma getImuMatrix_36 (imuData : list number) :
  length imuData = 36 ->
  getImuMatrix imuData
  = [slice imuData 0 9; slice imuData 9 18; slice imuData 18 27; slice imuData 27 36].
Proof.
  intros L. unfold getImuMatrix.
  rewrite matrixLoop_step by lia. simpl.
  rewrite matrixLoop_step by lia. simpl.
  rewrite matrixLoop_step by lia. simpl.
  rewrite matrixLoop_step by lia. simpl.
  rewrite matrixLoop_done by lia. reflexivity.
Qed.

Lemma submatrix_entry (f : nat -> number) (j i : nat) :
  j < 4 -> i < 9 ->
  nth i (nth j [slice (map f (seq 0 36)) 0 9; slice (map f (seq 0 36)) 9 18;
                slice (map f (seq 0 36)) 18 27; slice (map f (seq 0 36)) 27 36] [])
        0%float
  = f (9 * j + i).
Proof.
  intros J I.
  destruct j as [|[|[|[|j]]]]; try lia;
    (destruct i as [|[|[|[|[|[|[|[|[|i]]]]]]]]]; try lia; reflexivity).
Qed.

Lemma renderImu_gate (s : AppState) :
  renderImu s = ImuSensors (getImuMatrix (imuData s)) <-> length (imuData s) = 36.
Proof.
  unfold renderImu.
  destruct (Nat.eqb_spec (length (imuData s)) 36); split; intros;
    congruence || discriminate.
Qed.

(** The IMU block is on screen, showing the sub-sensor rows, exactly when
    a device is recorded as connected and the slot holds 36 floats. *)
Lemma shownImu_gate (s : AppState) :
  shownImu (renderBody s) = Some (ImuSensors (getImuMatrix (imuData s)))
  <-> connectedDevice s <> None /\ length (imuData s) = 36.
Proof.
  unfold renderBody. destruct (connectedDevice s) as [d|]; cbn [shownImu].
  - rewrite <- renderImu_gate. split.
    + intros E. split; [discriminate | congruence].
    + intros [_ E]. now rewrite E.
  - split; [discriminate | intros [C _]; now contradiction C].
Qed.

Lemma shownImu_earlier_gate (s : AppState) :
  shownImu_earlier (renderBody_earlier s) = Some (Joined (imuData s))
  <-> connectedDevice s <> None /\ 0 < length (imuData s).
Proof.
  unfold renderBody_earlier. destruct (connectedDevice s) as [d|]; cbn [shownImu_earlier].
  - destruct (Nat.ltb_spec 0 (length (imuData s))); split.
    + intros _. split; [discriminate | assumption].
    + reflexivity.
    + discriminate.
    + intros [_ L]. lia.
  - split; [discriminate | intros [C _]; now contradiction C].
Qed.

(** With no device recorded as connected the screen shows the device
    list, which reads the candidates only. *)
Lemma renderBody_scanned (s s' : AppState) :
  connectedDevice s = None ->
  connectedDevice s' = connectedDevice s ->
  allDevices s' = allDevices s ->
  renderBody s' = renderBody s /\ renderBody_earlier s' = renderBody_earlier s.
Proof.
  intros C C' A. unfold renderBody, renderBody_earlier, renderRows.
  rewrite C', C, A. split; reflexivity.
Qed.

Lemma setImuData_frame (floats : list number) (w : World) :
  connectedDevice (ui (exec (setImuData floats) w)) = connectedDevice (ui w)
  /\ allDevices (ui (exec (setImuData floats) w)) = allDevices (ui w).
Proof. open_world w. split; reflexivity. Qed.

Lemma setLaserData_frame (floats : list number) (w : World) :
  connectedDevice (ui (exec (setLaserData floats) w)) = connectedDevice (ui w)
  /\ allDevices (ui (exec (setLaserData floats) w)) = allDevices (ui w).
Proof. open_world w. split; reflexivity. Qed.

Section ImuFrames.

Context {codec : BufferCodec}.

Lemma imuMonitor_frame (v : string) (w : World) :
  v <> ""%string ->
  connectedDevice (ui (exec (imuMonitor None (payload v)) w)) = connectedDevice (ui w)
  /\ allDevices (ui (exec (imuMonitor None (payload v)) w)) = allDevices (ui w).
Proof.
  intros H. destruct (imuMonitor_payload v w H) as [_ I]. rewrite I.
  destruct (parseFloats (Buffer_from_base64 v)); [apply setImuData_frame | split; reflexivity].
Qed.

Lemma imuMonitor_earlier_payload (v : string) (w : World) :
  v <> ""%string ->
  (fst (imuMonitor_earlier None (payload v) w)
   = match parseFloats (Buffer_from_base64 v) with
     | Normal _ => Normal tt
     | Throw e => Throw e
     end)
  /\ (ui (exec (imuMonitor_earlier None (payload v)) w)
      = match parseFloats (Buffer_from_base64 v) with
        | Normal floats => ui (exec (setImuData floats) w)
        | Throw _ => ui w
        end).
Proof.
  intros H. unfold imuMonitor_earlier. rewrite (truthy_payload v H).
  open_world w. js_unfold. destruct (parseFloats (Buffer_from_base64 v)); simpl; auto.
Qed.

Lemma imuMonitor_earlier_multiple (v : string) (w : World) :
  v <> ""%string ->
  length (Buffer_from_base64 v) mod 4 = 0 ->
  imuMonitor_earlier None (payload v) w
  = (Normal tt, exec (imuMonitor_earlier None (payload v)) w)
  /\ imuData (ui (exec (imuMonitor_earlier None (payload v)) w))
     = floats_of (Buffer_from_base64 v) (length (Buffer_from_base64 v) / 4).
Proof.
  intros H M.
  destruct (imuMonitor_earlier_payload v w H) as [I1 I2].
  rewrite (parseFloats_multiple _ M) in *.
  split.
  - unfold exec. rewrite (surjective_pairing (imuMonitor_earlier None (payload v) w)) at 1.
    now rewrite I1.
  - rewrite I2. apply imuData_setImuData.
Qed.

Lemma imuMonitor_earlier_ragged (v : string) (w : World) :
  v <> ""%string ->
  length (Buffer_from_base64 v) mod 4 <> 0 ->
  fst (imuMonitor_earlier None (payload v) w) = Throw RangeError
  /\ ui (exec (imuMonitor_earlier None (payload v)) w) = ui w.
Proof.
  intros H M.
  destruct (imuMonitor_earlier_payload v w H) as [I1 I2].
  rewrite (parseFloats_ragged _ M) in *.
  split; assumption.
Qed.

Lemma imuMonitor_earlier_frame (v : string) (w : World) :
  v <> ""%string ->
  connectedDevice (ui (exec (imuMonitor_earlier None (payload v)) w))
  = connectedDevice (ui w)
  /\ allDevices (ui (exec (imuMonitor_earlier None (payload v)) w)) = allDevices (ui w).
Proof.
  intros H. destruct (imuMonitor_earlier_payload v w H) as [_ I]. rewrite I.
  destruct (parseFloats (Buffer_from_base64 v)); [apply setImuData_frame | split; reflexivity].
Qed.

(** C1 (amended). The IMU callback, in both revisions of the screen,
    compares the buffer length with nothing and knows no LengthMismatch.
    A buffer whose length is a multiple of 4 is parsed and its length/4
    floats overwrite the IMU slot, whatever the length; a buffer whose
    length is not a multiple of 4 ends the callback in a [RangeError] and
    leaves the React state as it was.  The only test of a length is in
    the render of the later revision, inside the view of a connected
    device: after a callback that completed, the IMU block with the
    sub-sensor rows is on screen exactly when a device is recorded as
    connected and the buffer held 144 octets, and with a device connected
    and any other length the block says that there is no IMU data yet.
    The earlier revision tests
    no length anywhere: while a device is recorded as connected it shows
    the stored floats as soon as there is one.  With no device recorded
    as connected, a notification that still arrives changes nothing on
    either screen, which is the device list. *)
Theorem imu_length_checked_at_render (v : string) (w : World) :
  v <> ""%string ->
  (length (Buffer_from_base64 v) mod 4 = 0 ->
     imuMonitor None (payload v) w = (Normal tt, exec (imuMonitor None (payload v)) w)
     /\ imuData (ui (exec (imuMonitor None (payload v)) w))
        = floats_of (Buffer_from_base64 v) (length (Buffer_from_base64 v) / 4))
  /\ (length (Buffer_from_base64 v) mod 4 <> 0 ->
        fst (imuMonitor None (payload v) w) = Throw RangeError
        /\ ui (exec (imuMonitor None (payload v)) w) = ui w)
  /\ (fst (imuMonitor None (payload v) w) = Normal tt ->
        (shownImu (renderBody (ui (exec (imuMonitor None (payload v)) w)))
         = Some (ImuSensors
                   (getImuMatrix (imuData (ui (exec (imuMonitor None (payload v)) w)))))
         <-> connectedDevice (ui w) <> None /\ length (Buffer_from_base64 v) = 144))
  /\ (connectedDevice (ui w) = None ->
        renderBody (ui (exec (imuMonitor None (payload v)) w)) = renderBody (ui w)
        /\ shownImu (renderBody (ui (exec (imuMonitor None (payload v)) w))) = None)
  /\ (length (Buffer_from_base64 v) mod 4 = 0 ->
        imuMonitor_earlier None (payload v) w
        = (Normal tt, exec (imuMonitor_earlier None (payload v)) w)
        /\ imuData (ui (exec (imuMonitor_earlier None (payload v)) w))
           = floats_of (Buffer_from_base64 v) (length (Buffer_from_base64 v) / 4))
  /\ (length (Buffer_from_base64 v) mod 4 <> 0 ->
        fst (imuMonitor_earlier None (payload v) w) = Throw RangeError
        /\ ui (exec (imuMonitor_earlier None (payload v)) w) = ui w)
  /\ (fst (imuMonitor_earlier None (payload v) w) = Normal tt ->
        (shownImu_earlier
           (renderBody_earlier (ui (exec (imuMonitor_earlier None (payload v)) w)))
         = Some (Joined (imuData (ui (exec (imuMonitor_earlier None (payload v)) w))))
         <-> connectedDevice (ui w) <> None /\ 0 < length (Buffer_from_base64 v)))
  /\ (connectedDevice (ui w) = None ->
        renderBody_earlier (ui (exec (imuMonitor_earlier None (payload v)) w))
        = renderBody_earlier (ui w))
  /\ (fst (imuMonitor None (payload v) w) = Normal tt ->
      connectedDevice (ui w) <> None ->
      length (Buffer_from_base64 v) <> 144 ->
      shownImu (renderBody (ui (exec (imuMonitor None (payload v)) w))) = Some NoImuData).
Proof.
  intros H.
  destruct (imuMonitor_frame v w H) as [K A].
  destruct (imuMonitor_earlier_frame v w H) as [K' A'].
  split; [exact (imuMonitor_multiple v w H)|].
  split; [exact (imuMonitor_ragged v w H)|].
  split.
  { intros N.
    destruct (Nat.eq_dec (length (Buffer_from_base64 v) mod 4) 0) as [M|M].
    - destruct (imuMonitor_multiple v w H M) as [_ S].
      rewrite shownImu_gate, K, S, floats_of_length.
      pose proof (Nat.div_mod_eq (length (Buffer_from_base64 v)) 4).
      split; intros [C L]; (split; [exact C | lia]).
    - destruct (imuMonitor_ragged v w H M) as [T _]. congruence. }
  split.
  { intros C. split.
    - apply (renderBody_scanned (ui w) _ C K A).
    - unfold renderBody. rewrite K, C. reflexivity. }
  split; [exact (imuMonitor_earlier_multiple v w H)|].
  split; [exact (imuMonitor_earlier_ragged v w H)|].
  split.
  { intros N.
    destruct (Nat.eq_dec (length (Buffer_from_base64 v) mod 4) 0) as [M|M].
    - destruct (imuMonitor_earlier_multiple v w H M) as [_ S].
      rewrite shownImu_earlier_gate, K', S, floats_of_length.
      pose proof (Nat.div_mod_eq (length (Buffer_from_base64 v)) 4).
      split; intros [C L]; (split; [exact C | lia]).
    - destruct (imuMonitor_earlier_ragged v w H M) as [T _]. congruence. }
  split; [intros C; apply (renderBody_scanned (ui w) _ C K' A')|].
  intros N C L.
  destruct (Nat.eq_dec (length (Buffer_from_base64 v) mod 4) 0) as [M|M].
  - destruct (imuMonitor_multiple v w H M) as [_ S].
    unfold renderBody. rewrite K.
    destruct (connectedDevice (ui w)) as [d|]; [|now contradiction C].
    cbn [shownImu]. unfold renderImu. rewrite S, floats_of_length.
    pose proof (Nat.div_mod_eq (length (Buffer_from_base64 v)) 4).
    destruct (Nat.eqb_spec (length (Buffer_from_base64 v) / 4) 36); [lia | reflexivity].
  - destruct (imuMonitor_ragged v w H M) as [T _]. congruence.
Qed.

(** C2. For every buffer of 144 octets the IMU callback completes and
    stores 36 floats, float number k being the little-endian float32 at
    octets [4k, 4k+4).  The screen groups them with [getImuMatrix] into 4
    consecutive rows of 9: entry i of row j is float 9j+i, the float32 at
    octets [36j+4i, 36j+4i+4).  For the buffer 00 00 80 3F followed by 140
    zero octets, row 0 is [1, 0, 0, 0, 0, 0, 0, 0, 0] and rows 1 to 3 are
    zero. *)
Theorem imu_frame_layout (v : string) (w : World) :
  v <> ""%string ->
  length (Buffer_from_base64 v) = 144 ->
  imuMonitor None (payload v) w = (Normal tt, exec (imuMonitor None (payload v)) w)
  /\ length (imuData (ui (exec (imuMonitor None (payload v)) w))) = 36
  /\ (forall k, k < 36 ->
        nth k (imuData (ui (exec (imuMonitor None (payload v)) w))) 0%float
        = float32_at (Buffer_from_base64 v) (4 * k)
        /\ readFloatLE (Buffer_from_base64 v) (4 * k)
           = Normal (float32_at (Buffer_from_base64 v) (4 * k)))
  /\ renderImu (ui (exec (imuMonitor None (payload v)) w))
     = ImuSensors (getImuMatrix (imuData (ui (exec (imuMonitor None (payload v)) w))))
  /\ length (getImuMatrix (imuData (ui (exec (imuMonitor None (payload v)) w)))) = 4
  /\ (forall j, j < 4 ->
        nth j (getImuMatrix (imuData (ui (exec (imuMonitor None (payload v)) w)))) []
        = slice (imuData (ui (exec (imuMonitor None (payload v)) w))) (9 * j) (9 * j + 9))
  /\ (forall j, j < 4 ->
        length (nth j (getImuMatrix (imuData (ui (exec (imuMonitor None (payload v)) w)))) [])
        = 9)
  /\ (forall j i, j < 4 -> i < 9 ->
        nth i (nth j (getImuMatrix (imuData (ui (exec (imuMonitor None (payload v)) w)))) [])
            0%float
        = float32_at (Buffer_from_base64 v) (36 * j + 4 * i))
  /\ (Buffer_from_base64 v = imu_one_buffer ->
        getImuMatrix (imuData (ui (exec (imuMonitor None (payload v)) w)))
        = [[1; 0; 0; 0; 0; 0; 0; 0; 0]; [0; 0; 0; 0; 0; 0; 0; 0; 0];
           [0; 0; 0; 0; 0; 0; 0; 0; 0]; [0; 0; 0; 0; 0; 0; 0; 0; 0]]%float).
Proof.
  intros H L.
  assert (length (Buffer_from_base64 v) mod 4 = 0) as M by (rewrite L; reflexivity).
  destruct (imuMonitor_multiple v w H M) as [R S].
  rewrite L in S. change (144 / 4) with 36 in S.
  assert (length (floats_of (Buffer_from_base64 v) 36) = 36) as L36
      by apply floats_of_length.
  assert (renderImu (ui (exec (imuMonitor None (payload v)) w))
          = ImuSensors (getImuMatrix (imuData (ui (exec (imuMonitor None (payload v)) w)))))
    as G by (apply renderImu_gate; rewrite S; exact L36).
  rewrite S in G |- *.
  rewrite (getImuMatrix_36 _ L36) in G |- *.
  split; [exact R|].
  split; [exact L36|].
  split.
  { intros k K. split.
    - unfold floats_of.
      rewrite (nth_indep _ 0%float (float32_at (Buffer_from_base64 v) (4 * 0)))
        by (rewrite length_map, length_seq; exact K).
      rewrite (map_nth (fun k => float32_at (Buffer_from_base64 v) (4 * k))).
      rewrite seq_nth by exact K. reflexivity.
    - apply readFloatLE_in_bounds. lia. }
  split; [exact G|].
  split; [reflexivity|].
  split.
  { intros j J. destruct j as [|[|[|[|j]]]]; try lia; reflexivity. }
  split.
  { intros j J. destruct j as [|[|[|[|j]]]]; try lia; reflexivity. }
  split.
  { intros j i J I. unfold floats_of.
    rewrite (submatrix_entry (fun k => float32_at (Buffer_from_base64 v) (4 * k)) j i J I).
    f_equal. lia. }
  intros E. rewrite E. vm_compute. reflexivity.
Qed.

End ImuFrames.

Lemma imu_length_checked_at_render_witness :
  imuData (ui (exec (imuMonitor None (payload one_b64)) initialWorld)) = [1%float]
  /\ fst (imuMonitor None (payload "AACAPwA=") initialWorld) = Throw RangeError
  /\ (shownImu
        (renderBody
           (ui (exec (imuMonitor None (payload imu_one_b64)) (run initialWorld ready_session))))
      = Some (ImuSensors
                (getImuMatrix
                   (imuData (ui (exec (imuMonitor None (payload imu_one_b64))
                                      (run initialWorld ready_session))))))
      <-> connectedDevice (ui (run initialWorld ready_session)) <> None
          /\ length (Buffer_from_base64 imu_one_b64) = 144)
  /\ renderBody (ui (exec (imuMonitor None (payload imu_one_b64)) initialWorld))
     = renderBody (ui initialWorld)
  /\ (shownImu_earlier
        (renderBody_earlier
           (ui (exec (imuMonitor_earlier None (payload one_b64))
                     (run initialWorld ready_session))))
      = Some (Joined (imuData (ui (exec (imuMonitor_earlier None (payload one_b64))
                                        (run initialWorld ready_session)))))
      <-> connectedDevice (ui (run initialWorld ready_session)) <> None
          /\ 0 < length (Buffer_from_base64 one_b64)).
Proof.
  split; [|split; [|split; [|split]]].
  - destruct (imu_length_checked_at_render one_b64 initialWorld) as [A _]; [discriminate|].
    destruct (A eq_refl) as [_ S]. exact S.
  - destruct (imu_length_checked_at_render "AACAPwA=" initialWorld) as [_ [B _]];
      [discriminate|].
    destruct B as [T _]; [simpl; discriminate | exact T].
  - destruct (imu_length_checked_at_render imu_one_b64 (run initialWorld ready_session))
      as [_ [_ [C _]]]; [discriminate|].
    apply C. vm_compute. reflexivity.
  - destruct (imu_length_checked_at_render imu_one_b64 initialWorld)
      as [_ [_ [_ [D _]]]]; [discriminate|].
    destruct D as [E _]; [reflexivity | exact E].
  - destruct (imu_length_checked_at_render one_b64 (run initialWorld ready_session))
      as [_ [_ [_ [_ [_ [_ [F _]]]]]]]; [discriminate|].
    apply F. vm_compute. reflexivity.
Defined.

(** C1 as stated fails on a buffer of 4 octets: the callback completes
    without any error and the IMU slot, empty before, holds the float. *)
Lemma imu_four_octets_are_stored :
  length (Buffer_from_base64 one_b64) = 4
  /\ imuMonitor None (payload one_b64) initialWorld
     = (Normal tt, exec (imuMonitor None (payload one_b64)) initialWorld)
  /\ imuData (ui initialWorld) = []
  /\ imuData (ui (exec (imuMonitor None (payload one_b64)) initialWorld)) = [1%float].
Proof. vm_compute. repeat split. Qed.

Lemma imu_frame_layout_witness :
  length (Buffer_from_base64 imu_one_b64) = 144
  /\ getImuMatrix (imuData (ui (exec (imuMonitor None (payload imu_one_b64)) initialWorld)))
     = [[1; 0; 0; 0; 0; 0; 0; 0; 0]; [0; 0; 0; 0; 0; 0; 0; 0; 0];
        [0; 0; 0; 0; 0; 0; 0; 0; 0]; [0; 0; 0; 0; 0; 0; 0; 0; 0]]%float.
Proof.
  assert (length (Buffer_from_base64 imu_one_b64) = 144) as L by (vm_compute; reflexivity).
  split; [exact L|].
  destruct (imu_frame_layout imu_one_b64 initialWorld) as [_ [_ [_ [_ [_ [_ [_ [_ E]]]]]]]];
    [discriminate | exact L |].
  apply E. vm_compute. reflexivity.
Defined.

(** ** The weight callback *)

Lemma float32_at_firstn (buffer : Buffer) :
  float32_at (firstn 4 buffer) 0 = float32_at buffer 0.
Proof.
  unfold float32_at. rewrite !nth_firstn. reflexivity.
Qed.

Section SensorSlots.

Context {codec : BufferCodec}.

Lemma weightMonitor_long (v : string) (w : World) :
  v <> ""%string ->
  4 <= length (Buffer_from_base64 v) ->
  weightMonitor None (payload v) w
  = (Normal tt, exec (setWeightData (float32_at (firstn 4 (Buffer_from_base64 v)) 0)) w).
Proof.
  intros H L. unfold weightMonitor. rewrite (truthy_payload v H).
  destruct (Nat.leb_spec 4 (length (Buffer_from_base64 v))); [|lia].
  rewrite float32_at_firstn.
  unfold bind, lift. rewrite (readFloatLE_in_bounds _ 0) by lia.
  open_world w. reflexivity.
Qed.

Lemma weightMonitor_short (v : string) (w : World) :
  v <> ""%string ->
  length (Buffer_from_base64 v) < 4 ->
  weightMonitor None (payload v) w = (Normal tt, w).
Proof.
  intros H L. unfold weightMonitor. rewrite (truthy_payload v H).
  destruct (Nat.leb_spec 4 (length (Buffer_from_base64 v))); [lia|].
  reflexivity.
Qed.

(** C7. On a buffer of at least 4 octets the weight callback reads one
    little-endian float32 from octets [0, 4) and stores it; the octets
    from index 4 on do not matter: two payloads that agree on their first
    four octets leave the same world.  On a buffer of fewer than 4 octets
    nothing is read and the world, the weight slot included, stays as it
    was. *)
Theorem weight_reads_first_four_octets (v : string) (w : World) :
  v <> ""%string ->
  (4 <= length (Buffer_from_base64 v) ->
     weightMonitor None (payload v) w
     = (Normal tt, exec (setWeightData (float32_at (firstn 4 (Buffer_from_base64 v)) 0)) w)
     /\ weightData (ui (exec (weightMonitor None (payload v)) w))
        = float32_of_bits
            (word32LE (nth 0 (Buffer_from_base64 v) x00) (nth 1 (Buffer_from_base64 v) x00)
                      (nth 2 (Buffer_from_base64 v) x00) (nth 3 (Buffer_from_base64 v) x00))
     /\ readFloatLE (Buffer_from_base64 v) 0
        = Normal (weightData (ui (exec (weightMonitor None (payload v)) w)))
     /\ (forall v', v' <> ""%string ->
           firstn 4 (Buffer_from_base64 v') = firstn 4 (Buffer_from_base64 v) ->
           4 <= length (Buffer_from_base64 v') ->
           weightMonitor None (payload v') w = weightMonitor None (payload v) w))
  /\ (length (Buffer_from_base64 v) < 4 ->
        weightMonitor None (payload v) w = (Normal tt, w)
        /\ weightData (ui (exec (weightMonitor None (payload v)) w)) = weightData (ui w)).
Proof.
  intros H. split; intros L.
  - pose proof (weightMonitor_long v w H L) as R.
    assert (weightData (ui (exec (weightMonitor None (payload v)) w))
            = float32_at (Buffer_from_base64 v) 0) as S.
    { unfold exec at 1. rewrite R. cbn [snd]. rewrite float32_at_firstn.
      apply weightData_setWeightData. }
    split; [exact R|].
    split; [rewrite S; reflexivity|].
    split; [rewrite S; apply readFloatLE_in_bounds; lia|].
    intros v' H' F L'.
    rewrite R, (weightMonitor_long v' w H' L'), F. reflexivity.
  - pose proof (weightMonitor_short v w H L) as R.
    split; [exact R|].
    unfold exec. rewrite R. reflexivity.
Qed.

Lemma disconnectDevice_connected (d : Device) (w : World) :
  fst (disconnectDevice (Some d) w) = Normal tt
  /\ connectedDevice (ui (exec (disconnectDevice (Some d)) w)) = None
  /\ sensorStore (ui (exec (disconnectDevice (Some d)) w)) = sensorStore initialState
  /\ allDevices (ui (exec (disconnectDevice (Some d)) w)) = allDevices (ui w)
  /\ isScanning (ui (exec (disconnectDevice (Some d)) w)) = isScanning (ui w)
  /\ calls (exec (disconnectDevice (Some d)) w)
     = calls w ++ [bleManager_cancelDeviceConnection (id d)]
  /\ pending (exec (disconnectDevice (Some d)) w) = pending w ++ [AwaitCancel (id d)]
  /\ monitors (exec (disconnectDevice (Some d)) w) = monitors w
  /\ scanListener (exec (disconnectDevice (Some d)) w) = scanListener w.
Proof. open_world w. repeat split. Qed.




End SensorSlots.

Lemma weight_reads_first_four_octets_witness :
  weightData (ui (exec (weightMonitor None (payload one_b64)) initialWorld)) = 1%float
  /\ weightMonitor None (payload "AACAPwECAwQF") initialWorld
     = weightMonitor None (payload one_b64) initialWorld
  /\ weightMonitor None (payload "AACA") initialWorld = (Normal tt, initialWorld).
Proof.
  split; [|split].
  - destruct (weight_reads_first_four_octets one_b64 initialWorld) as [A _]; [discriminate|].
    destruct A as [_ [S _]]; [vm_compute; lia | exact S].
  - destruct (weight_reads_first_four_octets one_b64 initialWorld) as [A _]; [discriminate|].
    destruct A as [_ [_ [_ I]]]; [vm_compute; lia|].
    apply I; [discriminate | reflexivity | vm_compute; lia].
  - destruct (weight_reads_first_four_octets "AACA" initialWorld) as [_ B]; [discriminate|].
    destruct B as [R _]; [vm_compute; lia | exact R].
Defined.



(** ** The scanner *)

Lemma findIndex_from_found {A : Type} (p : A -> bool) (l : list A) :
  forall i, (0 <= i)%Z -> (findIndex_from p l i >=? 0)%Z = existsb p l.
Proof.
  induction l as [|x l IH]; intros i I; simpl.
  - reflexivity.
  - destruct (p x); simpl.
    + apply Z.geb_le. lia.
    + apply IH. lia.
Qed.

Lemma existsb_id (device : Device) (l : list Device) :
  existsb (fun d => (id d =? id device)%string) l = true <-> In (id device) (map id l).
Proof.
  rewrite existsb_exists, in_map_iff. split.
  - intros [x [I E]]. exists x. apply String.eqb_eq in E. auto.
  - intros [x [E I]]. exists x. split; [exact I|]. now apply String.eqb_eq.
Qed.

Lemma scanCallback_candidates (error : option BleError) (device : option Device) (w : World) :
  allDevices (ui (exec (scanCallback error device) w)) = allDevices (ui w)
  \/ exists d,
       error = None /\ device = Some d
       /\ name d = Some DEVICE_LOCAL_NAME
       /\ ~ In (id d) (map id (allDevices (ui w)))
       /\ allDevices (ui (exec (scanCallback error device) w)) = allDevices (ui w) ++ [d].
Proof.
  open_world w. unfold scanCallback.
  destruct error as [e|]; [left; reflexivity|].
  destruct device as [d|]; [|left; reflexivity].
  destruct (name d) as [n|] eqn:N; [|left; reflexivity].
  destruct (String.eqb_spec n DEVICE_LOCAL_NAME) as [E|E]; [|left; reflexivity].
  js_unfold.
  unfold findIndex. rewrite findIndex_from_found by lia.
  match goal with
  | |- context [existsb ?f ?l] => destruct (existsb f l) eqn:X
  end.
  - left. reflexivity.
  - right. exists d. repeat split; try congruence.
    intros I. apply existsb_id in I. congruence.
Qed.

Lemma candidates_ok_nil : candidates_ok [].
Proof. split; constructor. Qed.

Lemma candidates_ok_snoc (l : list Device) (d : Device) :
  candidates_ok l ->
  name d = Some DEVICE_LOCAL_NAME ->
  ~ In (id d) (map id l) ->
  candidates_ok (l ++ [d]).
Proof.
  intros [N F] M I. split.
  - rewrite map_app. apply NoDup_app; simpl.
    + exact N.
    + constructor; [intros []|constructor].
    + intros a A [B|[]]. subst a. contradiction.
  - apply Forall_app. split; [exact F|]. constructor; [exact M|constructor].
Qed.

Lemma scanCallback_keeps_candidates_ok
      (error : option BleError) (device : option Device) (w : World) :
  candidates_ok (allDevices (ui w)) ->
  candidates_ok (allDevices (ui (exec (scanCallback error device) w))).
Proof.
  intros C.
  destruct (scanCallback_candidates error device w) as [E|[d [_ [_ [N [I E]]]]]];
    rewrite E; [exact C | now apply candidates_ok_snoc].
Qed.

Lemma scanSession_candidates_ok :
  forall (cbs : list (option BleError * option Device)) (w : World),
    candidates_ok (allDevices (ui w)) ->
    candidates_ok
      (allDevices
         (ui (fold_left (fun w cb => exec (scanCallback (fst cb) (snd cb)) w) cbs w))).
Proof.
  induction cbs as [|cb cbs IH]; intros w C; simpl.
  - exact C.
  - apply IH. now apply scanCallback_keeps_candidates_ok.
Qed.

Section Invariant.

Context {codec : BufferCodec}.

Lemma finish_ui (r : Completion unit * World) : ui (finish r) = ui (snd r).
Proof. destruct r as [[u|e] w]; [reflexivity | open_world w; reflexivity]. Qed.

Lemma requestPermissions_frame (env : PermissionEnv) (w : World) :
  exists asked,
    requestPermissions env w
    = (Normal (hasPermission env),
       {| ui := ui w; calls := calls w ++ map PermissionsAndroid_request asked;
          scanListener := scanListener w; timers := timers w; pending := pending w;
          monitors := monitors w; uncaught := uncaught w;
          effectClosure := effectClosure w |}).
Proof.
  open_world w.
  unfold hasPermission, requestPermissions, requestAndroid12Permissions, request.
  destruct (Platform_OS env).
  - destruct ((match platformApiLevel env with Some l => l | None => (-1)%Z end <? 31)%Z).
    + exists [ACCESS_FINE_LOCATION]. reflexivity.
    + exists [BLUETOOTH_SCAN; BLUETOOTH_CONNECT; ACCESS_FINE_LOCATION].
      js_unfold. cbn [map]. rewrite <- !app_assoc. reflexivity.
  - exists []. js_unfold. cbn [map]. rewrite app_nil_r. reflexivity.
  - exists []. js_unfold. cbn [map]. rewrite app_nil_r. reflexivity.
Qed.

Lemma scanForDevices_resolved_run (env : PermissionEnv) (w : World) :
  exists asked,
    scanForDevices_resolved env w
    = scanForDevices_resume (hasPermission env)
        {| ui := ui w; calls := calls w ++ map PermissionsAndroid_request asked;
           scanListener := scanListener w; timers := timers w;
           pending := remove_first AwaitPermissions (pending w);
           monitors := monitors w; uncaught := uncaught w;
           effectClosure := effectClosure w |}.
Proof.
  open_world w.
  unfold scanForDevices_resolved, bind, settle_, set_pending. cbv beta iota.
  match goal with
  | |- context [requestPermissions env ?w0] =>
      destruct (requestPermissions_frame env w0) as [asked R]; rewrite R
  end.
  exists asked. reflexivity.
Qed.

Lemma step_candidates (w : World) (e : Event) :
  allDevices (ui (step w e)) = allDevices (ui w)
  \/ allDevices (ui (step w e)) = []
  \/ exists error device,
       allDevices (ui (step w e)) = allDevices (ui (exec (scanCallback error device) w)).
Proof.
  unfold step. destruct (enabled w e); [|left; reflexivity].
  rewrite finish_ui.
  destruct e as [ | env | error device | | device | connected | deviceId error
                | connected found | connected error | deviceId c error characteristic
                | device r | | deviceId r | ]; unfold fire.
  - left. open_world w. reflexivity.
  - destruct (scanForDevices_resolved_run env w) as [asked R]. rewrite R.
    open_world w. unfold scanForDevices_resume.
    destruct (hasPermission env); [right; left|left]; reflexivity.
  - right; right. exists error, device. reflexivity.
  - left. open_world w. reflexivity.
  - left. open_world w. reflexivity.
  - left. open_world w. reflexivity.
  - left. open_world w. reflexivity.
  - left. open_world w. reflexivity.
  - left. open_world w. reflexivity.
  - left. open_world w.
    destruct c; unfold monitor, imuMonitor, laserMonitor, weightMonitor;
      destruct error; try reflexivity;
      destruct (truthy_value characteristic); try reflexivity.
    + js_unfold. destruct (parseFloats (Buffer_from_base64 s)); reflexivity.
    + js_unfold. destruct (parseFloats (Buffer_from_base64 s)); reflexivity.
    + destruct (4 <=? length (Buffer_from_base64 s)); try reflexivity.
      js_unfold. destruct (readFloatLE (Buffer_from_base64 s) 0); reflexivity.
  - left. open_world w. unfold readDeviceID_resume.
    destruct r as [err|chr]; try reflexivity.
    destruct (truthy_value chr); reflexivity.
  - left. open_world w. cbn [ui connectedDevice].
    match goal with
    | |- context [disconnectDevice ?o] => destruct o
    end; reflexivity.
  - left. open_world w. destruct r; reflexivity.
  - left. open_world w. cbn [effectClosure].
    match goal with
    | |- context [disconnectDevice ?o] => destruct o
    end; reflexivity.
Qed.

Lemma step_keeps_candidates_ok (w : World) (e : Event) :
  candidates_ok (allDevices (ui w)) -> candidates_ok (allDevices (ui (step w e))).
Proof.
  intros C.
  destruct (step_candidates w e) as [E|[E|[error [device E]]]]; rewrite E.
  - exact C.
  - apply candidates_ok_nil.
  - now apply scanCallback_keeps_candidates_ok.
Qed.

Lemma run_keeps_candidates_ok :
  forall (events : list Event) (w : World),
    candidates_ok (allDevices (ui w)) -> candidates_ok (allDevices (ui (run w events))).
Proof.
  induction events as [|e events IH]; intros w C; simpl.
  - exact C.
  - apply IH. now apply step_keeps_candidates_ok.
Qed.

(** C3. Every call of the scan callback leaves the candidate list as it
    was or appends the reported device, and it appends only a device
    whose advertised name is exactly the filter name "NeuraLoad" (an
    absent name never matches) and whose id is not yet in the list.  So in
    a scan session, which starts from the emptied list, after any sequence
    of callbacks no id occurs twice and every candidate carries the filter
    name; the same holds after any sequence of events of the screen. *)
Theorem scanner_dedups_and_filters :
  (forall (error : option BleError) (device : option Device) (w : World),
      allDevices (ui (exec (scanCallback error device) w)) = allDevices (ui w)
      \/ exists d,
           error = None /\ device = Some d
           /\ name d = Some DEVICE_LOCAL_NAME
           /\ ~ In (id d) (map id (allDevices (ui w)))
           /\ allDevices (ui (exec (scanCallback error device) w))
              = allDevices (ui w) ++ [d])
  /\ (forall (cbs : list (option BleError * option Device)) (w : World),
         NoDup (map id (allDevices (ui (scanSession cbs w))))
         /\ Forall (fun d => name d = Some DEVICE_LOCAL_NAME)
                   (allDevices (ui (scanSession cbs w))))
  /\ (forall events : list Event,
         NoDup (map id (allDevices (ui (run initialWorld events))))
         /\ Forall (fun d => name d = Some DEVICE_LOCAL_NAME)
                   (allDevices (ui (run initialWorld events)))).
Proof.
  split; [exact scanCallback_candidates|].
  split.
  - intros cbs w. apply scanSession_candidates_ok.
    open_world w. apply candidates_ok_nil.
  - intros events. apply run_keeps_candidates_ok. apply candidates_ok_nil.
Qed.

End Invariant.

(** ** The permission gate of the scanner *)

Lemma remove_first_snoc (p : Pending) (l : list Pending) :
  existsb (Pending_eqb p) l = false ->
  Pending_eqb p p = true ->
  remove_first p (l ++ [p]) = l.
Proof.
  intros N R. induction l as [|q l IH]; simpl in *.
  - now rewrite R.
  - apply orb_false_iff in N. destruct N as [N1 N2].
    rewrite N1. f_equal. now apply IH.
Qed.

(** C8. [scanForDevices] asks for the permissions once, before any scan
    is started: up to its [await] it only stops a running scan and leaves
    one permission promise pending.  [requestPermissions] always resolves
    to a boolean.  When that boolean is false, the resumed function logs,
    clears [isScanning] as the scan callback does on a scan error, and
    returns: it makes no [startDeviceScan] call, installs no scan
    callback, arms no timer and leaves no new permission promise, so
    nothing asks again.  When it is true, the list is emptied and the scan
    and its timer are started. *)
Theorem permission_gate (env : PermissionEnv) (w : World) :
  scanForDevices w = (Normal tt, exec scanForDevices w)
  /\ pending (exec scanForDevices w) = pending w ++ [AwaitPermissions]
  /\ calls (exec scanForDevices w) = calls w ++ [bleManager_stopDeviceScan]
  /\ scanListener (exec scanForDevices w) = false
  /\ timers (exec scanForDevices w) = timers w
  /\ (forall w0, fst (requestPermissions env w0) = Normal (hasPermission env))
  /\ (hasPermission env = false ->
      exists asked,
        scanForDevices_resolved env w = (Normal tt, exec (scanForDevices_resolved env) w)
        /\ calls (exec (scanForDevices_resolved env) w)
           = calls w ++ map PermissionsAndroid_request asked
               ++ [console_log "BLE Permissions not granted!"]
        /\ ~ In bleManager_startDeviceScan
               (map PermissionsAndroid_request asked
                  ++ [console_log "BLE Permissions not granted!"])
        /\ scanListener (exec (scanForDevices_resolved env) w) = scanListener w
        /\ timers (exec (scanForDevices_resolved env) w) = timers w
        /\ pending (exec (scanForDevices_resolved env) w)
           = remove_first AwaitPermissions (pending w)
        /\ ui (exec (scanForDevices_resolved env) w) = ui (exec (setIsScanning false) w)
        /\ (forall error device,
              ui (exec (scanForDevices_resolved env) w)
              = ui (exec (scanCallback (Some error) device) w))
        /\ (is_pending AwaitPermissions w = false ->
            pending (exec (scanForDevices_resolved env) (exec scanForDevices w)) = pending w
            /\ scanListener (exec (scanForDevices_resolved env) (exec scanForDevices w))
               = false
            /\ isScanning (ui (exec (scanForDevices_resolved env) (exec scanForDevices w)))
               = false))
  /\ (hasPermission env = true ->
      exists asked,
        scanForDevices_resolved env w = (Normal tt, exec (scanForDevices_resolved env) w)
        /\ calls (exec (scanForDevices_resolved env) w)
           = calls w ++ map PermissionsAndroid_request asked
               ++ [bleManager_startDeviceScan; window_setTimeout 10000]
        /\ scanListener (exec (scanForDevices_resolved env) w) = true
        /\ timers (exec (scanForDevices_resolved env) w) = S (timers w)
        /\ allDevices (ui (exec (scanForDevices_resolved env) w)) = []).
Proof.
  assert (forall w0, fst (requestPermissions env w0) = Normal (hasPermission env)) as V.
  { intros w0. destruct (requestPermissions_frame env w0) as [asked R].
    rewrite R. reflexivity. }
  open_world w. unfold scanForDevices. js_unfold. unfold exec.
  match goal with
  | |- context [scanForDevices_resolved env
                  (Build_World ?s ?c ?sl ?t (?p ++ [AwaitPermissions]) ?m ?u ?ec)] =>
      destruct (scanForDevices_resolved_run env
                  (Build_World s c sl t (p ++ [AwaitPermissions]) m u ec)) as [asked' R'];
      rewrite R'; clear R'
  end.
  match goal with
  | |- context [scanForDevices_resolved env ?W] =>
      destruct (scanForDevices_resolved_run env W) as [asked R]; rewrite R; clear R
  end.
  unfold scanForDevices_resume. js_unfold.
  split; [reflexivity|].
  split; [reflexivity|].
  split; [reflexivity|].
  split; [reflexivity|].
  split; [reflexivity|].
  split; [exact V|].
  split; intros P; exists asked; rewrite P; cbn -[app map remove_first is_pending].
  - repeat split; try reflexivity.
    + now rewrite <- app_assoc.
    + intros I. apply in_app_or in I. destruct I as [I|[I|[]]]; [|discriminate].
      apply in_map_iff in I. destruct I as [x [I _]]. discriminate.
    + apply remove_first_snoc; [assumption | reflexivity].
  - repeat split; try reflexivity.
    now rewrite <- !app_assoc.
Qed.

Lemma permission_gate_witness :
  hasPermission env_denied = false
  /\ scanListener (exec (scanForDevices_resolved env_denied) (exec scanForDevices initialWorld))
     = false
  /\ pending (exec (scanForDevices_resolved env_denied) (exec scanForDevices initialWorld))
     = []
  /\ hasPermission env_ios = true
  /\ scanListener (exec (scanForDevices_resolved env_ios) initialWorld) = true.
Proof.
  destruct (permission_gate env_denied initialWorld) as [_ [_ [_ [_ [_ [_ [D _]]]]]]].
  destruct (permission_gate env_ios initialWorld) as [_ [_ [_ [_ [_ [_ [_ G]]]]]]].
  destruct D as [asked [_ [_ [_ [_ [_ [_ [_ [_ O]]]]]]]]]; [reflexivity|].
  destruct O as [O1 [O2 _]]; [reflexivity|].
  destruct G as [asked' [_ [_ [G1 _]]]]; [reflexivity|].
  repeat split; assumption.
Defined.

(** ** Disconnecting *)

Example ragged_notification_is_uncaught :
  uncaught (step (run initialWorld empty_discovery)
                 (Notify (id neuraLoad) LaserChannel None (payload "AACAPwA=")))
  = [RangeError]
  /\ ui (step (run initialWorld empty_discovery)
              (Notify (id neuraLoad) LaserChannel None (payload "AACAPwA=")))
     = ui (run initialWorld empty_discovery).
Proof. vm_compute. repeat split. Qed.

Example late_arrivals_deliverable : deliverable initialWorld late_arrivals = true.
Proof. vm_compute. reflexivity. Qed.

Example ready_session_connected :
  deliverable initialWorld ready_session = true
  /\ connectedDevice (ui (run initialWorld ready_session)) = Some neuraLoad
  /\ renderButton (ui (run initialWorld ready_session)) = DisconnectButton
  /\ renderBody (ui (run initialWorld ready_session))
     = SensorBlocks "NeuraLoad" "N/A" NoImuData NoLaserData NoWeightData
  /\ renderButton initialState = ScanButton "Scan for NeuraLoad" false
  /\ renderBody initialState = ScannedDevices true [].
Proof. vm_compute. repeat split. Qed.

Example two_connects_deliverable :
  deliverable initialWorld (two_connects ++ stale_completion) = true.
Proof. vm_compute. reflexivity. Qed.

Example empty_discovery_deliverable : deliverable initialWorld empty_discovery = true.
Proof. vm_compute. reflexivity. Qed.

Lemma string_eqb_refl (x : string) : (x =? x)%string = true.
Proof. apply String.eqb_refl. Qed.

Lemma Device_eqb_refl (d : Device) : Device_eqb d d = true.
Proof.
  unfold Device_eqb. rewrite string_eqb_refl. simpl.
  destruct (name d); simpl; [apply string_eqb_refl | reflexivity].
Qed.

Lemma Pending_eqb_refl (p : Pending) : Pending_eqb p p = true.
Proof.
  destruct p; simpl;
    [reflexivity | apply string_eqb_refl | apply Device_eqb_refl
     | apply Device_eqb_refl | apply string_eqb_refl].
Qed.

Lemma existsb_snoc {A : Type} (f : A -> bool) (l : list A) (x : A) :
  f x = true -> existsb f (l ++ [x]) = true.
Proof.
  intros H. rewrite existsb_app. simpl. rewrite H. now rewrite orb_true_r.
Qed.

Lemma existsb_app_l {A : Type} (f : A -> bool) (l l' : list A) :
  existsb f l = true -> existsb f (l ++ l') = true.
Proof. intros H. rewrite existsb_app, H. reflexivity. Qed.

Section Lifecycle.

Context {codec : BufferCodec}.

Lemma disconnectDevice_none (w : World) : disconnectDevice None w = (Normal tt, w).
Proof. reflexivity. Qed.




Lemma step_disconnect_keeps_pending (e : Event) (p : Pending) (w : World) :
  e = PressDisconnect \/ e = EffectCleanup ->
  is_pending p w = true ->
  is_pending p (step w e) = true.
Proof.
  unfold is_pending.
  intros [E|E] P; subst e; unfold step, enabled, fire; open_world w.
  - cbn [ui connectedDevice pending] in *.
    match goal with
    | |- context [disconnectDevice ?o] => destruct o
    end; cbn -[app existsb]; [|exact P].
    now apply existsb_app_l.
  - cbn [effectClosure pending] in *.
    match goal with
    | |- context [disconnectDevice ?o] => destruct o
    end; cbn -[app existsb]; [|exact P].
    now apply existsb_app_l.
Qed.

Lemma step_ConnectResolved (connected : Device) (w : World) :
  is_pending (AwaitConnect (id connected)) w = true ->
  connectedDevice (ui (step w (ConnectResolved connected))) = Some connected
  /\ sensorStore (ui (step w (ConnectResolved connected))) = sensorStore (ui w)
  /\ pending (step w (ConnectResolved connected))
     = remove_first (AwaitConnect (id connected)) (pending w) ++ [AwaitDiscover connected]
  /\ monitors (step w (ConnectResolved connected)) = monitors w
  /\ calls (step w (ConnectResolved connected))
     = calls w ++ [device_discoverAllServicesAndCharacteristics (id connected)].
Proof.
  intros P. unfold step, enabled. rewrite P. open_world w. repeat split.
Qed.

Lemma step_DiscoverResolved (connected : Device) (found : Discovery) (w : World) :
  is_pending (AwaitDiscover connected) w = true ->
  ui (step w (DiscoverResolved connected found)) = ui w
  /\ monitors (step w (DiscoverResolved connected found))
     = monitors w ++ [(id connected, ImuChannel); (id connected, LaserChannel);
                      (id connected, WeightChannel)]
  /\ pending (step w (DiscoverResolved connected found))
     = remove_first (AwaitDiscover connected) (pending w) ++ [AwaitRead connected]
  /\ calls (step w (DiscoverResolved connected found))
     = calls w
       ++ [bleManager_stopDeviceScan;
           device_monitorCharacteristicForService (id connected) SENSOR_SERVICE_UUID
             IMU_CHARACTERISTIC_UUID;
           device_monitorCharacteristicForService (id connected) SENSOR_SERVICE_UUID
             LASER_CHARACTERISTIC_UUID;
           device_monitorCharacteristicForService (id connected) SENSOR_SERVICE_UUID
             WEIGHT_CHARACTERISTIC_UUID;
           device_readCharacteristicForService (id connected) SENSOR_SERVICE_UUID
             DEVICE_ID_CHARACTERISTIC_UUID]
  /\ uncaught (step w (DiscoverResolved connected found)) = uncaught w.
Proof.
  intros P. unfold step, enabled. rewrite P. open_world w.
  unfold fire, connectToDevice_discovered, startNotifications, readDeviceID.
  cbn -[app remove_first].
  repeat split; rewrite <- ?app_assoc; reflexivity.
Qed.

Lemma is_monitored_after (deviceId : string) (c : Channel) (l : list (string * Channel)) :
  existsb (fun m => (fst m =? deviceId)%string && Channel_eqb (snd m) c)
          (l ++ [(deviceId, ImuChannel); (deviceId, LaserChannel); (deviceId, WeightChannel)])
  = true.
Proof.
  rewrite existsb_app. apply orb_true_iff. right.
  simpl. rewrite string_eqb_refl. destruct c; reflexivity.
Qed.

Lemma step_Notify_weight (deviceId v : string) (w : World) :
  is_monitored deviceId WeightChannel w = true ->
  v <> ""%string ->
  4 <= length (Buffer_from_base64 v) ->
  ui (step w (Notify deviceId WeightChannel None (payload v)))
  = ui (exec (setWeightData (float32_at (Buffer_from_base64 v) 0)) w).
Proof.
  intros M H L. unfold step, enabled. rewrite M.
  unfold fire, monitor. rewrite (weightMonitor_long v w H L).
  rewrite float32_at_firstn. reflexivity.
Qed.

Lemma step_Notify_error (deviceId : string) (c : Channel) (error : BleError)
      (characteristic : option Characteristic) (w : World) :
  ui (step w (Notify deviceId c (Some error) characteristic)) = ui w
  /\ uncaught (step w (Notify deviceId c (Some error) characteristic)) = uncaught w
  /\ monitors (step w (Notify deviceId c (Some error) characteristic)) = monitors w.
Proof.
  unfold step. destruct (enabled w _); [|repeat split].
  open_world w. destruct c; repeat split.
Qed.

End Lifecycle.



Section StaleCompletions.

Context {codec : BufferCodec}.

(** C5 (amended). The screen keeps no token of the current connection
    attempt and a completion is not compared with anything.  A disconnect
    (the button, or the effect cleanup) leaves a pending connect pending;
    when that connect then resolves, its continuation records the device
    as connected and starts discovery; when discovery resolves, the three
    notification callbacks are registered for it; and a weight
    notification that follows is stored. *)
Theorem stale_connect_completion_is_applied
        (disconnect : Event) (connected : Device) (found : Discovery)
        (v : string) (w : World) :
  disconnect = PressDisconnect \/ disconnect = EffectCleanup ->
  is_pending (AwaitConnect (id connected)) w = true ->
  v <> ""%string ->
  4 <= length (Buffer_from_base64 v) ->
  is_pending (AwaitConnect (id connected)) (step w disconnect) = true
  /\ connectedDevice (ui (run w [disconnect; ConnectResolved connected])) = Some connected
  /\ is_pending (AwaitDiscover connected) (run w [disconnect; ConnectResolved connected])
     = true
  /\ connectedDevice
       (ui (run w [disconnect; ConnectResolved connected;
                   DiscoverResolved connected found]))
     = Some connected
  /\ (forall c,
        is_monitored (id connected) c
          (run w [disconnect; ConnectResolved connected; DiscoverResolved connected found])
        = true)
  /\ connectedDevice
       (ui (run w [disconnect; ConnectResolved connected;
                   DiscoverResolved connected found;
                   Notify (id connected) WeightChannel None (payload v)]))
     = Some connected
  /\ weightData
       (ui (run w [disconnect; ConnectResolved connected;
                   DiscoverResolved connected found;
                   Notify (id connected) WeightChannel None (payload v)]))
     = float32_at (Buffer_from_base64 v) 0.
Proof.
  intros D P H L. cbn [run fold_left].
  pose proof (step_disconnect_keeps_pending disconnect _ w D P) as P1.
  set (w1 := step w disconnect) in *.
  destruct (step_ConnectResolved connected w1 P1) as [C2 [_ [P2 [M2 _]]]].
  set (w2 := step w1 (ConnectResolved connected)) in *.
  assert (is_pending (AwaitDiscover connected) w2 = true) as P2'.
  { unfold is_pending. rewrite P2. apply existsb_snoc. apply Device_eqb_refl. }
  destruct (step_DiscoverResolved connected found w2 P2') as [U3 [M3 _]].
  set (w3 := step w2 (DiscoverResolved connected found)) in *.
  assert (forall c, is_monitored (id connected) c w3 = true) as M3'.
  { intros c. unfold is_monitored. rewrite M3. apply is_monitored_after. }
  pose proof (step_Notify_weight (id connected) v w3 (M3' WeightChannel) H L) as U4.
  repeat split; try assumption.
  - rewrite U3. exact C2.
  - rewrite U4, connectedDevice_setWeightData, U3. exact C2.
  - rewrite U4. apply weightData_setWeightData.
Qed.

(** C6 (amended). What discovery found is not looked at.  Once the
    discovery promise resolves, whatever the peripheral holds, the
    continuation stops the scan, registers the three notification
    callbacks and issues the device-id read; the React state, and with it
    the connected device, stays as it was.  A characteristic that is
    missing shows only later, as an error passed to its callback, which
    logs it and changes nothing. *)
Theorem discovery_result_is_not_inspected
        (connected : Device) (found : Discovery) (w : World) :
  is_pending (AwaitDiscover connected) w = true ->
  step w (DiscoverResolved connected found) = step w (DiscoverResolved connected [])
  /\ ui (step w (DiscoverResolved connected found)) = ui w
  /\ monitors (step w (DiscoverResolved connected found))
     = monitors w ++ [(id connected, ImuChannel); (id connected, LaserChannel);
                      (id connected, WeightChannel)]
  /\ (forall c, is_monitored (id connected) c (step w (DiscoverResolved connected found))
                = true)
  /\ is_pending (AwaitRead connected) (step w (DiscoverResolved connected found)) = true
  /\ uncaught (step w (DiscoverResolved connected found)) = uncaught w
  /\ (forall c error characteristic,
        ui (step (step w (DiscoverResolved connected found))
                 (Notify (id connected) c (Some error) characteristic))
        = ui w
        /\ uncaught (step (step w (DiscoverResolved connected found))
                          (Notify (id connected) c (Some error) characteristic))
           = uncaught w).
Proof.
  intros P.
  destruct (step_DiscoverResolved connected found w P) as [U [M [Q [_ X]]]].
  split.
  { unfold step, enabled. rewrite P. reflexivity. }
  split; [exact U|].
  split; [exact M|].
  split.
  { intros c. unfold is_monitored. rewrite M. apply is_monitored_after. }
  split.
  { unfold is_pending. rewrite Q. apply existsb_snoc. apply Device_eqb_refl. }
  split; [exact X|].
  intros c error characteristic.
  destruct (step_Notify_error (id connected) c error characteristic
              (step w (DiscoverResolved connected found))) as [A [B _]].
  rewrite A, B, U, X. split; reflexivity.
Qed.

End StaleCompletions.

Lemma stale_connect_completion_is_applied_witness :
  is_pending (AwaitConnect (id neuraLoad2)) (run initialWorld two_connects) = true
  /\ connectedDevice
       (ui (run (run initialWorld two_connects)
                [PressDisconnect; ConnectResolved neuraLoad2;
                 DiscoverResolved neuraLoad2 full_discovery;
                 Notify (id neuraLoad2) WeightChannel None (payload one_b64)]))
     = Some neuraLoad2
  /\ weightData
       (ui (run (run initialWorld two_connects)
                [PressDisconnect; ConnectResolved neuraLoad2;
                 DiscoverResolved neuraLoad2 full_discovery;
                 Notify (id neuraLoad2) WeightChannel None (payload one_b64)]))
     = 1%float.
Proof.
  assert (is_pending (AwaitConnect (id neuraLoad2)) (run initialWorld two_connects) = true)
    as P by (vm_compute; reflexivity).
  split; [exact P|].
  destruct (stale_connect_completion_is_applied PressDisconnect neuraLoad2 full_discovery
              one_b64 (run initialWorld two_connects))
    as [_ [_ [_ [_ [_ [C W]]]]]];
    [left; reflexivity | exact P | discriminate | vm_compute; lia |].
  split; [exact C | exact W].
Defined.

(** C5 as stated fails on [two_connects ++ stale_completion]: Disconnect
    is pressed and clears the state, the second connect resolves after
    that, and at the end a device is connected again, its callbacks are
    registered and the weight slot holds a value. *)
Lemma stale_completion_resurrects_connection :
  deliverable initialWorld (two_connects ++ stale_completion) = true
  /\ connectedDevice (ui (run initialWorld (two_connects ++ [PressDisconnect; EffectCleanup])))
     = None
  /\ sensorStore (ui (run initialWorld (two_connects ++ [PressDisconnect; EffectCleanup])))
     = sensorStore initialState
  /\ is_pending (AwaitConnect (id neuraLoad2))
       (run initialWorld (two_connects ++ [PressDisconnect; EffectCleanup]))
     = true
  /\ connectedDevice (ui (run initialWorld (two_connects ++ stale_completion)))
     = Some neuraLoad2
  /\ monitors (run initialWorld (two_connects ++ stale_completion))
     = [(id neuraLoad2, ImuChannel); (id neuraLoad2, LaserChannel);
        (id neuraLoad2, WeightChannel)]
  /\ sensorStore (ui (run initialWorld (two_connects ++ stale_completion)))
     = ([], [], 1%float, "N/A"%string)
  /\ renderWeight (ui (run initialWorld (two_connects ++ stale_completion)))
     = WeightKg 1%float.
Proof. vm_compute. repeat split. Qed.

Lemma discovery_result_is_not_inspected_witness :
  is_pending (AwaitDiscover neuraLoad)
    (run initialWorld
       [PressScan; PermissionsResolved env_ios; ScanCallback None (Some neuraLoad);
        PressDevice neuraLoad; ConnectResolved neuraLoad]) = true
  /\ is_monitored (id neuraLoad) WeightChannel
       (step (run initialWorld
                [PressScan; PermissionsResolved env_ios; ScanCallback None (Some neuraLoad);
                 PressDevice neuraLoad; ConnectResolved neuraLoad])
             (DiscoverResolved neuraLoad [])) = true
  /\ connectedDevice
       (ui (step (run initialWorld
                    [PressScan; PermissionsResolved env_ios;
                     ScanCallback None (Some neuraLoad);
                     PressDevice neuraLoad; ConnectResolved neuraLoad])
                 (DiscoverResolved neuraLoad []))) = Some neuraLoad.
Proof.
  assert (is_pending (AwaitDiscover neuraLoad)
            (run initialWorld
               [PressScan; PermissionsResolved env_ios; ScanCallback None (Some neuraLoad);
                PressDevice neuraLoad; ConnectResolved neuraLoad]) = true)
    as P by (vm_compute; reflexivity).
  split; [exact P|].
  destruct (discovery_result_is_not_inspected neuraLoad []
              (run initialWorld
                 [PressScan; PermissionsResolved env_ios; ScanCallback None (Some neuraLoad);
                  PressDevice neuraLoad; ConnectResolved neuraLoad]) P)
    as [_ [U [_ [M _]]]].
  split; [exact (M WeightChannel)|].
  rewrite U. vm_compute. reflexivity.
Defined.

(** C6 as stated fails on [empty_discovery]: discovery finds neither the
    service nor any characteristic, and the session is not aborted: the
    device stays connected, the three callbacks are registered and the
    device-id read is under way. *)
Lemma empty_discovery_still_subscribes :
  deliverable initialWorld empty_discovery = true
  /\ connectedDevice (ui (run initialWorld empty_discovery)) = Some neuraLoad
  /\ monitors (run initialWorld empty_discovery)
     = [(id neuraLoad, ImuChannel); (id neuraLoad, LaserChannel);
        (id neuraLoad, WeightChannel)]
  /\ pending (run initialWorld empty_discovery) = [AwaitRead neuraLoad]
  /\ uncaught (run initialWorld empty_discovery) = [].
Proof. vm_compute. repeat split. Qed.

(** * Further properties of the screen *)

(** ** Permissions *)

(** X1. Which permissions [requestPermissions] asks for, and what it
    answers.  Off Android it asks nothing and answers true.  On Android
    below API 31, and also when the API level is unknown (it then counts
    as -1), it asks for the fine location only and answers whether that
    was granted.  From API 31 on it asks for scan, connect and fine
    location, always all three and in this order whatever the earlier
    answers were, and answers true only when all three were granted.  It
    never touches the React state. *)
Theorem requestPermissions_by_platform (env : PermissionEnv) (w : World) :
  ui (exec (requestPermissions env) w) = ui w
  /\ (Platform_OS env <> android -> requestPermissions env w = (Normal true, w))
  /\ (Platform_OS env = android -> (apiLevel_of env < 31)%Z ->
        fst (requestPermissions env w)
        = Normal (is_granted (PermissionsAndroid_answer env ACCESS_FINE_LOCATION))
        /\ calls (exec (requestPermissions env) w)
           = calls w ++ [PermissionsAndroid_request ACCESS_FINE_LOCATION])
  /\ (Platform_OS env = android -> platformApiLevel env = None ->
        calls (exec (requestPermissions env) w)
        = calls w ++ [PermissionsAndroid_request ACCESS_FINE_LOCATION])
  /\ (Platform_OS env = android -> (31 <= apiLevel_of env)%Z ->
        fst (requestPermissions env w)
        = Normal (is_granted (PermissionsAndroid_answer env BLUETOOTH_SCAN)
                  && is_granted (PermissionsAndroid_answer env BLUETOOTH_CONNECT)
                  && is_granted (PermissionsAndroid_answer env ACCESS_FINE_LOCATION))
        /\ calls (exec (requestPermissions env) w)
           = calls w ++ [PermissionsAndroid_request BLUETOOTH_SCAN;
                         PermissionsAndroid_request BLUETOOTH_CONNECT;
                         PermissionsAndroid_request ACCESS_FINE_LOCATION]).
Proof.
  open_world w.
  unfold requestPermissions, requestAndroid12Permissions, request, apiLevel_of.
  split.
  { destruct (Platform_OS env); try reflexivity.
    destruct (_ <? 31)%Z; reflexivity. }
  split.
  { intros N. destruct (Platform_OS env); [contradiction | reflexivity | reflexivity]. }
  split.
  { intros A L. rewrite A.
    destruct (Z.ltb_spec (match platformApiLevel env with Some l => l | None => (-1)%Z end) 31);
      [|lia].
    split; reflexivity. }
  split.
  { intros A N. rewrite A, N. reflexivity. }
  intros A L. rewrite A.
  destruct (Z.ltb_spec (match platformApiLevel env with Some l => l | None => (-1)%Z end) 31);
    [lia|].
  split; [reflexivity|].
  js_unfold. rewrite <- !app_assoc. reflexivity.
Qed.

Lemma requestPermissions_by_platform_witness :
  requestPermissions env_ios initialWorld = (Normal true, initialWorld)
  /\ fst (requestPermissions env_denied initialWorld) = Normal false
  /\ calls (exec (requestPermissions env_denied) initialWorld)
     = [PermissionsAndroid_request BLUETOOTH_SCAN;
        PermissionsAndroid_request BLUETOOTH_CONNECT;
        PermissionsAndroid_request ACCESS_FINE_LOCATION].
Proof.
  destruct (requestPermissions_by_platform env_ios initialWorld) as [_ [I _]].
  destruct (requestPermissions_by_platform env_denied initialWorld) as [_ [_ [_ [_ D]]]].
  split; [apply I; discriminate|].
  destruct D as [D1 D2]; [reflexivity | vm_compute; discriminate |].
  split; [exact D1 | exact D2].
Defined.

(** ** What a notification callback leaves alone *)

Section Notifications.

Context {codec : BufferCodec}.

(** X2. A notification that carries an error, or whose characteristic
    is null or has a null or empty value, is dropped by each of the three
    callbacks: the callback returns normally and the React state, the
    pending promises and the subscriptions stay as they were.  With an
    error exactly one line is logged; without one the world is untouched. *)
Theorem notification_without_payload_is_dropped
        (c : Channel) (error : option BleError)
        (characteristic : option Characteristic) (w : World) :
  error <> None \/ truthy_value characteristic = None ->
  fst (monitor c error characteristic w) = Normal tt
  /\ ui (exec (monitor c error characteristic) w) = ui w
  /\ pending (exec (monitor c error characteristic) w) = pending w
  /\ monitors (exec (monitor c error characteristic) w) = monitors w
  /\ (error <> None ->
      exists label, calls (exec (monitor c error characteristic) w)
                    = calls w ++ [console_log label])
  /\ (error = None -> monitor c error characteristic w = (Normal tt, w)).
Proof.
  intros H. open_world w.
  destruct error as [e|].
  - destruct c; cbn; repeat split; try (eexists; reflexivity); discriminate.
  - destruct H as [H|H]; [contradiction|].
    destruct c; unfold monitor, imuMonitor, laserMonitor, weightMonitor; rewrite H;
      repeat split; intros N; contradiction.
Qed.

(** X3. Each callback writes its own slot and nothing else.  Whatever it
    is called with, the IMU callback leaves the laser, weight and device-id
    slots as they were, the Laser callback the IMU, weight and device-id
    slots, the Weight callback the IMU, laser and device-id slots; none of
    them changes the candidate list, the connected device, the scanning
    flag, the pending promises, the subscriptions or the scan callback. *)
Theorem monitor_writes_only_its_slot
        (c : Channel) (error : option BleError)
        (characteristic : option Characteristic) (w : World) :
  allDevices (ui (exec (monitor c error characteristic) w)) = allDevices (ui w)
  /\ connectedDevice (ui (exec (monitor c error characteristic) w)) = connectedDevice (ui w)
  /\ isScanning (ui (exec (monitor c error characteristic) w)) = isScanning (ui w)
  /\ deviceID (ui (exec (monitor c error characteristic) w)) = deviceID (ui w)
  /\ (c <> ImuChannel ->
      imuData (ui (exec (monitor c error characteristic) w)) = imuData (ui w))
  /\ (c <> LaserChannel ->
      laserData (ui (exec (monitor c error characteristic) w)) = laserData (ui w))
  /\ (c <> WeightChannel ->
      weightData (ui (exec (monitor c error characteristic) w)) = weightData (ui w))
  /\ pending (exec (monitor c error characteristic) w) = pending w
  /\ monitors (exec (monitor c error characteristic) w) = monitors w
  /\ scanListener (exec (monitor c error characteristic) w) = scanListener w
  /\ timers (exec (monitor c error characteristic) w) = timers w.
Proof.
  open_world w.
  destruct c; unfold monitor, imuMonitor, laserMonitor, weightMonitor;
    (destruct error as [e|]; [cbn; repeat split; intros N; try reflexivity; contradiction|]);
    (destruct (truthy_value characteristic) as [v|];
       [|cbn; repeat split; intros N; try reflexivity; contradiction]).
  - js_unfold. destruct (parseFloats (Buffer_from_base64 v));
      cbn; repeat split; intros N; try reflexivity; contradiction.
  - js_unfold. destruct (parseFloats (Buffer_from_base64 v));
      cbn; repeat split; intros N; try reflexivity; contradiction.
  - destruct (4 <=? length (Buffer_from_base64 v));
      [|cbn; repeat split; intros N; try reflexivity; contradiction].
    js_unfold. destruct (readFloatLE (Buffer_from_base64 v) 0);
      cbn; repeat split; intros N; try reflexivity; contradiction.
Qed.

End Notifications.

Lemma notification_without_payload_is_dropped_witness :
  ui (exec (monitor ImuChannel (Some "GATT error"%string) (payload one_b64)) initialWorld)
  = ui initialWorld
  /\ monitor WeightChannel None (Some {| value := Some ""%string |}) initialWorld
     = (Normal tt, initialWorld).
Proof.
  destruct (notification_without_payload_is_dropped ImuChannel (Some "GATT error"%string)
              (payload one_b64) initialWorld) as [_ [U _]]; [left; discriminate|].
  destruct (notification_without_payload_is_dropped WeightChannel None
              (Some {| value := Some ""%string |}) initialWorld) as [_ [_ [_ [_ [_ N]]]]];
    [right; reflexivity|].
  split; [exact U | apply N; reflexivity].
Defined.

Lemma monitor_writes_only_its_slot_witness :
  imuData (ui (exec (monitor WeightChannel None (payload one_b64)) initialWorld))
  = imuData (ui initialWorld)
  /\ weightData (ui (exec (monitor ImuChannel None (payload one_b64)) initialWorld))
     = weightData (ui initialWorld).
Proof.
  destruct (monitor_writes_only_its_slot WeightChannel None (payload one_b64) initialWorld)
    as [_ [_ [_ [_ [I _]]]]].
  destruct (monitor_writes_only_its_slot ImuChannel None (payload one_b64) initialWorld)
    as [_ [_ [_ [_ [_ [_ [W _]]]]]]].
  split; [apply I | apply W]; discriminate.
Defined.

(** ** The laser frame *)

Lemma renderLaser_gate (s : AppState) :
  renderLaser s = LaserValues (laserData s) <-> length (laserData s) = 4.
Proof.
  unfold renderLaser.
  destruct (Nat.eqb_spec (length (laserData s)) 4); split; intros;
    congruence || discriminate.
Qed.

(** The Laser block is on screen, listing the values, exactly when a
    device is recorded as connected and the slot holds 4 floats. *)
Lemma shownLaser_gate (s : AppState) :
  shownLaser (renderBody s) = Some (LaserValues (laserData s))
  <-> connectedDevice s <> None /\ length (laserData s) = 4.
Proof.
  unfold renderBody. destruct (connectedDevice s) as [d|]; cbn [shownLaser].
  - rewrite <- renderLaser_gate. split.
    + intros E. split; [discriminate | congruence].
    + intros [_ E]. now rewrite E.
  - split; [discriminate | intros [C _]; now contradiction C].
Qed.

Section LaserFrames.

Context {codec : BufferCodec}.

Lemma laserMonitor_frame (v : string) (w : World) :
  v <> ""%string ->
  connectedDevice (ui (exec (laserMonitor None (payload v)) w)) = connectedDevice (ui w)
  /\ allDevices (ui (exec (laserMonitor None (payload v)) w)) = allDevices (ui w).
Proof.
  intros H. destruct (laserMonitor_payload v w H) as [_ I]. rewrite I.
  destruct (parseFloats (Buffer_from_base64 v)); [apply setLaserData_frame | split; reflexivity].
Qed.

(** X4. The Laser callback, like the IMU one, checks no length: a
    payload whose length is a multiple of 4 is stored as length/4 floats.
    After a callback that completed, the Laser block listing the values is
    on screen exactly when a device is recorded as connected and the
    payload held 16 octets; with no device recorded as connected the
    screen, which is the device list, stays as it was.  For a payload of
    16 octets value k is the little-endian float32 at octets [4k, 4k+4),
    in buffer order, and these four are what the connected view lists. *)
Theorem laser_frame_layout (v : string) (w : World) :
  v <> ""%string ->
  (fst (laserMonitor None (payload v) w) = Normal tt ->
     (shownLaser (renderBody (ui (exec (laserMonitor None (payload v)) w)))
      = Some (LaserValues (laserData (ui (exec (laserMonitor None (payload v)) w))))
      <-> connectedDevice (ui w) <> None /\ length (Buffer_from_base64 v) = 16))
  /\ (connectedDevice (ui w) = None ->
        renderBody (ui (exec (laserMonitor None (payload v)) w)) = renderBody (ui w)
        /\ shownLaser (renderBody (ui (exec (laserMonitor None (payload v)) w))) = None)
  /\ (length (Buffer_from_base64 v) = 16 ->
        laserMonitor None (payload v) w
        = (Normal tt, exec (laserMonitor None (payload v)) w)
        /\ laserData (ui (exec (laserMonitor None (payload v)) w))
           = [float32_at (Buffer_from_base64 v) 0; float32_at (Buffer_from_base64 v) 4;
              float32_at (Buffer_from_base64 v) 8; float32_at (Buffer_from_base64 v) 12]
        /\ (connectedDevice (ui w) <> None ->
              shownLaser (renderBody (ui (exec (laserMonitor None (payload v)) w)))
              = Some (LaserValues
                        [float32_at (Buffer_from_base64 v) 0;
                         float32_at (Buffer_from_base64 v) 4;
                         float32_at (Buffer_from_base64 v) 8;
                         float32_at (Buffer_from_base64 v) 12]))).
Proof.
  intros H.
  destruct (laserMonitor_frame v w H) as [K A].
  split; [|split].
  - intros N.
    destruct (Nat.eq_dec (length (Buffer_from_base64 v) mod 4) 0) as [M|M].
    + destruct (laserMonitor_multiple v w H M) as [_ S].
      rewrite shownLaser_gate, K, S, floats_of_length.
      pose proof (Nat.div_mod_eq (length (Buffer_from_base64 v)) 4).
      split; intros [C L]; (split; [exact C | lia]).
    + destruct (laserMonitor_ragged v w H M) as [T _]. congruence.
  - intros C. split.
    + apply (renderBody_scanned (ui w) _ C K A).
    + unfold renderBody. rewrite K, C. reflexivity.
  - intros L.
    assert (length (Buffer_from_base64 v) mod 4 = 0) as M by (rewrite L; reflexivity).
    destruct (laserMonitor_multiple v w H M) as [R S].
    rewrite L in S. change (16 / 4) with 4 in S.
    split; [exact R|].
    split; [exact S|].
    intros C.
    assert (shownLaser (renderBody (ui (exec (laserMonitor None (payload v)) w)))
            = Some (LaserValues (laserData (ui (exec (laserMonitor None (payload v)) w)))))
      as G.
    { apply shownLaser_gate. rewrite K, S. split; [exact C | reflexivity]. }
    rewrite G, S. reflexivity.
Qed.

End LaserFrames.

Lemma laser_frame_layout_witness :
  connectedDevice (ui (run initialWorld ready_session)) <> None
  /\ shownLaser
       (renderBody
          (ui (exec (laserMonitor None (payload "AACAPwAAAEAAAEBAAACAQA=="))
                    (run initialWorld ready_session))))
     = Some (LaserValues [1; 2; 3; 4]%float)
  /\ renderBody
       (ui (exec (laserMonitor None (payload "AACAPwAAAEAAAEBAAACAQA==")) initialWorld))
     = renderBody (ui initialWorld).
Proof.
  assert (connectedDevice (ui (run initialWorld ready_session)) <> None) as C
      by (vm_compute; discriminate).
  split; [exact C|]. split.
  - destruct (laser_frame_layout "AACAPwAAAEAAAEBAAACAQA==" (run initialWorld ready_session))
      as [_ [_ L]]; [discriminate|].
    destruct L as [_ [_ G]]; [vm_compute; reflexivity|].
    rewrite (G C). vm_compute. reflexivity.
  - destruct (laser_frame_layout "AACAPwAAAEAAAEBAAACAQA==" initialWorld)
      as [_ [N _]]; [discriminate|].
    destruct N as [E _]; [reflexivity | exact E].
Defined.

(** ** [getImuMatrix] on any list *)

Lemma slice_length9 {A : Type} (l : list A) (i : nat) :
  slice l i (i + 9) = firstn 9 (skipn i l).
Proof. unfold slice. replace (i + 9 - i) with 9 by lia. reflexivity. Qed.

Lemma matrixLoop_concat (n : nat) :
  forall (imuData : list number) (i : nat) (matrix : list (list number)),
    length imuData - i <= n ->
    concat (matrixLoop imuData i matrix) = concat matrix ++ skipn i imuData.
Proof.
  induction n as [|n IH]; intros imuData i matrix B.
  - rewrite matrixLoop_done by lia.
    rewrite skipn_all2 by lia. now rewrite app_nil_r.
  - destruct (lt_dec i (length imuData)) as [L|L].
    + rewrite matrixLoop_step by exact L.
      rewrite IH by lia.
      rewrite concat_app. simpl. rewrite app_nil_r, <- app_assoc. f_equal.
      rewrite slice_length9.
      rewrite <- (firstn_skipn 9 (skipn i imuData)) at 2. f_equal.
      rewrite skipn_skipn. f_equal. lia.
    + rewrite matrixLoop_done by lia.
      rewrite skipn_all2 by lia. now rewrite app_nil_r.
Qed.

Lemma matrixLoop_rows (n : nat) :
  forall (imuData : list number) (k : nat) (matrix : list (list number)),
    (length imuData + 8) / 9 - k <= n ->
    matrixLoop imuData (9 * k) matrix
    = matrix ++ map (fun j => slice imuData (9 * j) (9 * j + 9))
                    (seq k ((length imuData + 8) / 9 - k)).
Proof.
  induction n as [|n IH]; intros imuData k matrix B.
  - assert ((length imuData + 8) / 9 - k = 0) as Z by lia.
    rewrite Z. simpl. rewrite app_nil_r.
    apply matrixLoop_done.
    pose proof (Nat.div_mod_eq (length imuData + 8) 9).
    pose proof (Nat.mod_upper_bound (length imuData + 8) 9). lia.
  - pose proof (Nat.div_mod_eq (length imuData + 8) 9) as D.
    pose proof (Nat.mod_upper_bound (length imuData + 8) 9) as U.
    destruct (lt_dec (9 * k) (length imuData)) as [L|L].
    + rewrite matrixLoop_step by exact L.
      replace (9 * k + 9) with (9 * S k) at 1 by lia.
      rewrite IH by lia.
      replace ((length imuData + 8) / 9 - k) with (S ((length imuData + 8) / 9 - S k)) by lia.
      simpl seq. simpl map. rewrite <- app_assoc. reflexivity.
    + assert ((length imuData + 8) / 9 - k = 0) as Z by lia.
      rewrite Z. simpl. rewrite app_nil_r.
      apply matrixLoop_done. lia.
Qed.

(** X5. [getImuMatrix] on a list of any length: row j is
    [imuData.slice(9j, 9j+9)], there are ceil(length/9) rows, every row
    holds between 1 and 9 floats, and the rows put one after the other
    give the list back; the empty list gives no row. *)
Theorem getImuMatrix_rows (imuData : list number) :
  getImuMatrix imuData
  = map (fun j => slice imuData (9 * j) (9 * j + 9)) (seq 0 ((length imuData + 8) / 9))
  /\ length (getImuMatrix imuData) = (length imuData + 8) / 9
  /\ concat (getImuMatrix imuData) = imuData
  /\ Forall (fun row => 1 <= length row <= 9) (getImuMatrix imuData)
  /\ getImuMatrix [] = [].
Proof.
  assert (getImuMatrix imuData
          = map (fun j => slice imuData (9 * j) (9 * j + 9))
                (seq 0 ((length imuData + 8) / 9))) as E.
  { unfold getImuMatrix.
    pose proof (matrixLoop_rows ((length imuData + 8) / 9) imuData 0 []) as R.
    change (9 * 0) with 0 in R. rewrite R by lia.
    rewrite Nat.sub_0_r. reflexivity. }
  split; [exact E|].
  split; [rewrite E, length_map, length_seq; reflexivity|].
  split.
  { unfold getImuMatrix. rewrite (matrixLoop_concat (length imuData)) by lia.
    reflexivity. }
  split; [|reflexivity].
  rewrite E. apply Forall_forall. intros row I.
  apply in_map_iff in I. destruct I as [j [R I]]. apply in_seq in I. subst row.
  rewrite slice_length9, length_firstn, length_skipn.
  pose proof (Nat.div_mod_eq (length imuData + 8) 9).
  pose proof (Nat.mod_upper_bound (length imuData + 8) 9). lia.
Qed.

(** ** Parsing a buffer made of two *)

Lemma float32_at_app_l (a b : Buffer) (offset : nat) :
  offset + 4 <= length a -> float32_at (a ++ b) offset = float32_at a offset.
Proof.
  intros H. unfold float32_at. rewrite !app_nth1 by lia. reflexivity.
Qed.

Lemma float32_at_app_r (a b : Buffer) (offset : nat) :
  float32_at (a ++ b) (length a + offset) = float32_at b offset.
Proof.
  unfold float32_at.
  rewrite <- !Nat.add_assoc, !app_nth2_plus. reflexivity.
Qed.

Lemma floats_of_app (a b : Buffer) (n m : nat) :
  length a = 4 * n ->
  floats_of (a ++ b) (n + m) = floats_of a n ++ floats_of b m.
Proof.
  intros L. unfold floats_of. rewrite seq_app, map_app. f_equal.
  - apply map_ext_in. intros k K. apply in_seq in K.
    apply float32_at_app_l. lia.
  - rewrite <- (Nat.add_0_r n) at 1. rewrite Nat.add_0_l.
    replace (seq (n + 0) m) with (map (fun k => n + k) (seq 0 m)).
    + rewrite map_map. apply map_ext. intros k.
      replace (4 * (n + k)) with (length a + 4 * k) by lia.
      apply float32_at_app_r.
    + clear. generalize 0 as s. induction m as [|m IH]; intros s; simpl.
      * reflexivity.
      * f_equal. rewrite IH. f_equal. lia.
Qed.

(** X6. Parsing composes over aligned concatenation.  When the first
    buffer's length is a multiple of 4, the loop on the two buffers joined
    returns the floats of the first followed by the floats of the second,
    and it raises the [RangeError] exactly when the loop on the second
    buffer alone does. *)
Theorem parseFloats_app (a b : Buffer) :
  length a mod 4 = 0 ->
  exists floats_a,
    parseFloats a = Normal floats_a
    /\ parseFloats (a ++ b)
       = match parseFloats b with
         | Normal floats_b => Normal (floats_a ++ floats_b)
         | Throw e => Throw e
         end.
Proof.
  intros A. exists (floats_of a (length a / 4)).
  split; [now apply parseFloats_multiple|].
  pose proof (Nat.div_mod_eq (length a) 4) as DA.
  pose proof (Nat.div_mod_eq (length b) 4) as DB.
  pose proof (Nat.mod_upper_bound (length b) 4) as UB.
  destruct (Nat.eq_dec (length b mod 4) 0) as [B|B].
  - rewrite (parseFloats_multiple b B).
    assert (length (a ++ b) mod 4 = 0) as AB.
    { rewrite length_app.
      replace (length a + length b) with ((length a / 4 + length b / 4) * 4) by lia.
      apply Nat.Div0.mod_mul. }
    rewrite (parseFloats_multiple (a ++ b) AB). f_equal.
    replace (length (a ++ b) / 4) with (length a / 4 + length b / 4).
    + apply floats_of_app. lia.
    + rewrite length_app.
      replace (length a + length b) with ((length a / 4 + length b / 4) * 4) by lia.
      now rewrite Nat.div_mul.
  - rewrite (parseFloats_ragged b B).
    apply parseFloats_ragged. rewrite length_app.
    replace (length a + length b) with (length b + (length a / 4) * 4) by lia.
    rewrite Nat.Div0.mod_add. exact B.
Qed.

Lemma parseFloats_app_witness :
  parseFloats ([x00; x00; x80; x3f] ++ [x00; x00; x00; x40]) = Normal [1; 2]%float.
Proof.
  destruct (parseFloats_app [x00; x00; x80; x3f] [x00; x00; x00; x40]) as [fa [A E]];
    [reflexivity|].
  rewrite E. vm_compute in A. injection A as A. subst fa.
  vm_compute. reflexivity.
Defined.

(** ** [byteArrayToFloat32] *)

Lemma byte_of_Z_octet (b : byte) : byte_of_Z (octet b) = b.
Proof. destruct b; reflexivity. Qed.

Lemma byte_of_Z_wraps (z : Z) : byte_of_Z (z + 256) = byte_of_Z z.
Proof.
  unfold byte_of_Z.
  change 255%Z with (Z.ones 8).
  rewrite !Z.land_ones by lia.
  change (2 ^ 8)%Z with 256%Z.
  rewrite <- (Z.mul_1_l 256) at 1.
  now rewrite Z.mod_add by lia.
Qed.

(** X7. [byteArrayToFloat32] of the earlier revision.  On at most four
    elements it never throws: the elements are stored modulo 256 in a
    zeroed view of four octets, so missing elements count as 0, and the
    result is the little-endian float32 of the view; on four octets it
    agrees with [Buffer.readFloatLE].  On more than four elements the
    fifth [setUint8] is outside the view and the function ends in a
    [RangeError]. *)
Theorem byteArrayToFloat32_cases (bytes : list Z) :
  (length bytes <= 4 ->
     byteArrayToFloat32 bytes
     = Normal (float32_of_bits
                 (word32LE (byte_of_Z (nth 0 bytes 0%Z)) (byte_of_Z (nth 1 bytes 0%Z))
                           (byte_of_Z (nth 2 bytes 0%Z)) (byte_of_Z (nth 3 bytes 0%Z)))))
  /\ (4 < length bytes -> byteArrayToFloat32 bytes = Throw RangeError)
  /\ (forall b0 b1 b2 b3 : byte,
        byteArrayToFloat32 [octet b0; octet b1; octet b2; octet b3]
        = readFloatLE [b0; b1; b2; b3] 0)
  /\ (length bytes <= 4 ->
        byteArrayToFloat32 (map (fun z => (z + 256)%Z) bytes) = byteArrayToFloat32 bytes).
Proof.
  assert (forall l : list Z, length l <= 4 ->
            byteArrayToFloat32 l
            = Normal (float32_of_bits
                        (word32LE (byte_of_Z (nth 0 l 0%Z)) (byte_of_Z (nth 1 l 0%Z))
                                  (byte_of_Z (nth 2 l 0%Z)) (byte_of_Z (nth 3 l 0%Z)))))
    as Short.
  { intros l L.
    destruct l as [|z0 [|z1 [|z2 [|z3 [|z4 rest]]]]]; simpl in L; try lia; reflexivity. }
  split; [exact (Short bytes)|].
  split.
  { intros L.
    destruct bytes as [|z0 [|z1 [|z2 [|z3 [|z4 rest]]]]]; simpl in L; try lia.
    reflexivity. }
  split.
  { intros b0 b1 b2 b3. rewrite Short by (simpl; lia).
    cbn [nth]. rewrite !byte_of_Z_octet. reflexivity. }
  intros L.
  rewrite (Short bytes L), Short by (rewrite length_map; exact L).
  destruct bytes as [|z0 [|z1 [|z2 [|z3 [|z4 rest]]]]]; simpl in L; try lia;
    cbn [map nth]; rewrite ?byte_of_Z_wraps; reflexivity.
Qed.

Lemma byteArrayToFloat32_cases_witness :
  byteArrayToFloat32 [0; 0; 128; 63]%Z = Normal 1%float
  /\ byteArrayToFloat32 [0; 0; 128; 63; 0]%Z = Throw RangeError
  /\ byteArrayToFloat32 [256; 256; 384; 319]%Z = byteArrayToFloat32 [0; 0; 128; 63]%Z.
Proof.
  destruct (byteArrayToFloat32_cases [0; 0; 128; 63]%Z) as [S [_ [_ W]]].
  destruct (byteArrayToFloat32_cases [0; 0; 128; 63; 0]%Z) as [_ [T _]].
  split; [rewrite S by (simpl; lia); reflexivity|].
  split; [apply T; simpl; lia|].
  apply W. simpl. lia.
Defined.

(** ** The device-id read and the connect sequence *)

Section Attempts.

Context {codec : BufferCodec}.

(** X8. The device-id read is best effort.  Its continuation never
    throws and changes nothing but the device-id slot: the connected
    device, the candidate list, the three sensor slots and the
    subscriptions stay.  A resolved read with a non-empty value stores the
    UTF-8 text of the decoded payload; a rejected read is logged and a
    read without a value is ignored, and both leave the slot as it was. *)
Theorem device_id_read_is_best_effort
        (r : BleError + option Characteristic) (v : string) (w : World) :
  fst (readDeviceID_resume r w) = Normal tt
  /\ connectedDevice (ui (exec (readDeviceID_resume r) w)) = connectedDevice (ui w)
  /\ allDevices (ui (exec (readDeviceID_resume r) w)) = allDevices (ui w)
  /\ imuData (ui (exec (readDeviceID_resume r) w)) = imuData (ui w)
  /\ laserData (ui (exec (readDeviceID_resume r) w)) = laserData (ui w)
  /\ weightData (ui (exec (readDeviceID_resume r) w)) = weightData (ui w)
  /\ monitors (exec (readDeviceID_resume r) w) = monitors w
  /\ (v <> ""%string ->
      deviceID (ui (exec (readDeviceID_resume (inr (payload v))) w))
      = Buffer_toString_utf8 (Buffer_from_base64 v))
  /\ (forall error,
        ui (exec (readDeviceID_resume (inl error)) w) = ui w
        /\ calls (exec (readDeviceID_resume (inl error)) w)
           = calls w ++ [console_log "Read Device ID error:"])
  /\ (forall characteristic,
        truthy_value characteristic = None ->
        readDeviceID_resume (inr characteristic) w = (Normal tt, w)).
Proof.
  unfold readDeviceID_resume.
  split; [|split; [|split; [|split; [|split; [|split; [|split]]]]]].
  1-7: destruct r as [e|chr]; [|destruct (truthy_value chr)]; open_world w; reflexivity.
  split; [|split].
  - intros H. rewrite (truthy_payload v H). open_world w. reflexivity.
  - intros error. open_world w. split; reflexivity.
  - intros chr T. rewrite T. reflexivity.
Qed.

Lemma step_DiscoverRejected (connected : Device) (error : BleError) (w : World) :
  is_pending (AwaitDiscover connected) w = true ->
  ui (step w (DiscoverRejected connected error)) = ui w
  /\ monitors (step w (DiscoverRejected connected error)) = monitors w
  /\ calls (step w (DiscoverRejected connected error))
     = calls w ++ [console_log "Connection error:"]
  /\ uncaught (step w (DiscoverRejected connected error)) = uncaught w.
Proof.
  intros P. unfold step, enabled. rewrite P. open_world w. repeat split.
Qed.

(** X9. A failed attempt is only logged.  When the connect promise
    rejects, the React state and the subscriptions stay as they were and
    no discovery is asked for.  When the connect resolves and the
    discovery then rejects, nothing is subscribed and no device-id read is
    issued, and the device recorded at the connect stays recorded as
    connected: the [catch] block does not reset it. *)
Theorem failed_attempt_is_only_logged
        (connected : Device) (error : BleError) (w : World) :
  is_pending (AwaitConnect (id connected)) w = true ->
  (ui (step w (ConnectRejected (id connected) error)) = ui w
   /\ monitors (step w (ConnectRejected (id connected) error)) = monitors w
   /\ calls (step w (ConnectRejected (id connected) error))
      = calls w ++ [console_log "Connection error:"]
   /\ uncaught (step w (ConnectRejected (id connected) error)) = uncaught w)
  /\ (connectedDevice
        (ui (run w [ConnectResolved connected; DiscoverRejected connected error]))
      = Some connected
      /\ sensorStore (ui (run w [ConnectResolved connected; DiscoverRejected connected error]))
         = sensorStore (ui w)
      /\ monitors (run w [ConnectResolved connected; DiscoverRejected connected error])
         = monitors w
      /\ calls (run w [ConnectResolved connected; DiscoverRejected connected error])
         = calls w ++ [device_discoverAllServicesAndCharacteristics (id connected);
                       console_log "Connection error:"]
      /\ uncaught (run w [ConnectResolved connected; DiscoverRejected connected error])
         = uncaught w).
Proof.
  intros P. split.
  - unfold step, enabled. rewrite P. open_world w. repeat split.
  - cbn [run fold_left].
    destruct (step_ConnectResolved connected w P) as [C [S [Q [M K]]]].
    assert (uncaught (step w (ConnectResolved connected)) = uncaught w) as X.
    { unfold step, enabled. rewrite P. open_world w. reflexivity. }
    set (w1 := step w (ConnectResolved connected)) in *.
    assert (is_pending (AwaitDiscover connected) w1 = true) as P1.
    { unfold is_pending. rewrite Q. apply existsb_snoc. apply Device_eqb_refl. }
    destruct (step_DiscoverRejected connected error w1 P1) as [U [M1 [K1 X1]]].
    rewrite U, M1, K1, X1, K, <- app_assoc. repeat split; assumption.
Qed.

(** X10. What a resolved discovery sets off, in order: the scan is
    stopped in the manager, the IMU, Laser and Weight characteristics of
    the sensor service are subscribed, and the device-id characteristic is
    read once and never subscribed.  The [isScanning] flag and the armed
    scan timers are left as they are. *)
Theorem discovery_success_effects
        (connected : Device) (found : Discovery) (w : World) :
  is_pending (AwaitDiscover connected) w = true ->
  calls (step w (DiscoverResolved connected found))
  = calls w
    ++ [bleManager_stopDeviceScan;
        device_monitorCharacteristicForService (id connected)
          "00000001-736c-4645-b520-7127aadf8c47" "00000002-736c-4645-b520-7127aadf8c47";
        device_monitorCharacteristicForService (id connected)
          "00000001-736c-4645-b520-7127aadf8c47" "00000003-736c-4645-b520-7127aadf8c47";
        device_monitorCharacteristicForService (id connected)
          "00000001-736c-4645-b520-7127aadf8c47" "00000004-736c-4645-b520-7127aadf8c47";
        device_readCharacteristicForService (id connected)
          "00000001-736c-4645-b520-7127aadf8c47" "00000005-736c-4645-b520-7127aadf8c47"]
  /\ scanListener (step w (DiscoverResolved connected found)) = false
  /\ isScanning (ui (step w (DiscoverResolved connected found))) = isScanning (ui w)
  /\ timers (step w (DiscoverResolved connected found)) = timers w.
Proof.
  intros P. unfold step, enabled. rewrite P. open_world w.
  unfold fire, connectToDevice_discovered, startNotifications, readDeviceID.
  cbn -[app remove_first].
  repeat split; rewrite <- ?app_assoc; reflexivity.
Qed.

(** X11. [disconnectDevice] cancels the connection and resets the
    state, and that is all: it removes no notification callback, stops no
    scan and disarms no timer, and it keeps the candidate list and the
    scanning flag.  So a callback registered for the device can still be
    called after the Disconnect button was pressed. *)
Theorem disconnect_keeps_subscriptions (d : Device) (c : Channel) (w : World) :
  monitors (exec (disconnectDevice (Some d)) w) = monitors w
  /\ scanListener (exec (disconnectDevice (Some d)) w) = scanListener w
  /\ timers (exec (disconnectDevice (Some d)) w) = timers w
  /\ allDevices (ui (exec (disconnectDevice (Some d)) w)) = allDevices (ui w)
  /\ isScanning (ui (exec (disconnectDevice (Some d)) w)) = isScanning (ui w)
  /\ calls (exec (disconnectDevice (Some d)) w)
     = calls w ++ [bleManager_cancelDeviceConnection (id d)]
  /\ (is_monitored (id d) c w = true ->
      forall error characteristic,
        enabled (step w PressDisconnect) (Notify (id d) c error characteristic) = true).
Proof.
  split; [|split; [|split; [|split; [|split; [|split]]]]];
    try (open_world w; reflexivity).
  intros M error characteristic.
  unfold step, enabled at 1, fire. open_world w. cbn [ui connectedDevice].
  match goal with
  | |- context [disconnectDevice ?o] => destruct o
  end; exact M.
Qed.

End Attempts.

Lemma device_id_read_is_best_effort_witness :
  deviceID (ui (exec (readDeviceID_resume (inr (payload id_b64))) initialWorld))
  = "NeuraLoad-01"%string.
Proof.
  destruct (device_id_read_is_best_effort (inr (payload id_b64)) id_b64 initialWorld)
    as [_ [_ [_ [_ [_ [_ [_ [D _]]]]]]]].
  rewrite D by discriminate. reflexivity.
Defined.

Lemma failed_attempt_is_only_logged_witness :
  is_pending (AwaitConnect (id neuraLoad))
    (run initialWorld
       [PressScan; PermissionsResolved env_ios; ScanCallback None (Some neuraLoad);
        PressDevice neuraLoad]) = true
  /\ connectedDevice
       (ui (run (run initialWorld
                   [PressScan; PermissionsResolved env_ios;
                    ScanCallback None (Some neuraLoad); PressDevice neuraLoad])
                [ConnectResolved neuraLoad;
                 DiscoverRejected neuraLoad "Device disconnected"%string]))
     = Some neuraLoad
  /\ monitors
       (run (run initialWorld
               [PressScan; PermissionsResolved env_ios;
                ScanCallback None (Some neuraLoad); PressDevice neuraLoad])
            [ConnectResolved neuraLoad;
             DiscoverRejected neuraLoad "Device disconnected"%string])
     = [].
Proof.
  assert (is_pending (AwaitConnect (id neuraLoad))
            (run initialWorld
               [PressScan; PermissionsResolved env_ios; ScanCallback None (Some neuraLoad);
                PressDevice neuraLoad]) = true) as P by (vm_compute; reflexivity).
  split; [exact P|].
  destruct (failed_attempt_is_only_logged neuraLoad "Device disconnected"%string
              (run initialWorld
                 [PressScan; PermissionsResolved env_ios; ScanCallback None (Some neuraLoad);
                  PressDevice neuraLoad]) P) as [_ [C [_ [M _]]]].
  split; [exact C | exact M].
Defined.

Lemma discovery_success_effects_witness :
  is_pending (AwaitDiscover neuraLoad)
    (run initialWorld
       [PressScan; PermissionsResolved env_ios; ScanCallback None (Some neuraLoad);
        PressDevice neuraLoad; ConnectResolved neuraLoad]) = true
  /\ scanListener
       (step (run initialWorld
                [PressScan; PermissionsResolved env_ios; ScanCallback None (Some neuraLoad);
                 PressDevice neuraLoad; ConnectResolved neuraLoad])
             (DiscoverResolved neuraLoad full_discovery)) = false
  /\ isScanning
       (ui (step (run initialWorld
                    [PressScan; PermissionsResolved env_ios;
                     ScanCallback None (Some neuraLoad);
                     PressDevice neuraLoad; ConnectResolved neuraLoad])
                 (DiscoverResolved neuraLoad full_discovery))) = true.
Proof.
  assert (is_pending (AwaitDiscover neuraLoad)
            (run initialWorld
               [PressScan; PermissionsResolved env_ios; ScanCallback None (Some neuraLoad);
                PressDevice neuraLoad; ConnectResolved neuraLoad]) = true)
    as P by (vm_compute; reflexivity).
  split; [exact P|].
  destruct (discovery_success_effects neuraLoad full_discovery
              (run initialWorld
                 [PressScan; PermissionsResolved env_ios; ScanCallback None (Some neuraLoad);
                  PressDevice neuraLoad; ConnectResolved neuraLoad]) P) as [_ [L [S _]]].
  split; [exact L|]. rewrite S. vm_compute. reflexivity.
Defined.

(** ** What each event can change *)

Lemma finish_normal (w w' : World) : finish (Normal tt, w') = w'.
Proof. reflexivity. Qed.

Lemma finish_timers (r : Completion unit * World) : timers (finish r) = timers (snd r).
Proof. destruct r as [[u|e] w]; [reflexivity | open_world w; reflexivity]. Qed.

Lemma finish_uncaught (r : Completion unit * World) :
  uncaught (finish r)
  = match fst r with
    | Normal _ => uncaught (snd r)
    | Throw e => uncaught (snd r) ++ [e]
    end.
Proof. destruct r as [[u|e] w]; [reflexivity | open_world w; reflexivity]. Qed.

Section Events.

Context {codec : BufferCodec}.

Lemma monitor_outcome (c : Channel) (error : option BleError)
      (characteristic : option Characteristic) (w : World) :
  timers (snd (monitor c error characteristic w)) = timers w
  /\ uncaught (snd (monitor c error characteristic w)) = uncaught w
  /\ connectedDevice (ui (snd (monitor c error characteristic w))) = connectedDevice (ui w)
  /\ (fst (monitor c error characteristic w) = Normal tt
      \/ (fst (monitor c error characteristic w) = Throw RangeError
          /\ ui (snd (monitor c error characteristic w)) = ui w
          /\ c <> WeightChannel
          /\ error = None
          /\ exists v, truthy_value characteristic = Some v
                       /\ length (Buffer_from_base64 v) mod 4 <> 0)).
Proof.
  open_world w.
  destruct c; unfold monitor, imuMonitor, laserMonitor, weightMonitor;
    (destruct error as [e|]; [repeat split; left; reflexivity|]);
    (destruct (truthy_value characteristic) as [v|]; [|repeat split; left; reflexivity]).
  - js_unfold.
    destruct (Nat.eq_dec (length (Buffer_from_base64 v) mod 4) 0) as [M|M].
    + rewrite (parseFloats_multiple _ M). repeat split. left. reflexivity.
    + rewrite (parseFloats_ragged _ M). repeat split. right.
      repeat split; try discriminate. exists v. split; [reflexivity | exact M].
  - js_unfold.
    destruct (Nat.eq_dec (length (Buffer_from_base64 v) mod 4) 0) as [M|M].
    + rewrite (parseFloats_multiple _ M). repeat split. left. reflexivity.
    + rewrite (parseFloats_ragged _ M). repeat split. right.
      repeat split; try discriminate. exists v. split; [reflexivity | exact M].
  - destruct (Nat.leb_spec 4 (length (Buffer_from_base64 v))) as [L|L].
    + js_unfold. rewrite (readFloatLE_in_bounds _ 0) by lia.
      repeat split. left. reflexivity.
    + repeat split. left. reflexivity.
Qed.

(** X12. The scan timers are never cancelled.  No event other than a
    timer firing lowers the number of armed timers; every granted scan
    start arms one more; and a timer that fires, whichever session armed
    it, stops the running scan and clears the scanning flag while keeping
    the candidate list. *)
Theorem scan_timers_are_never_cancelled (e : Event) (w : World) :
  (e <> ScanTimeout -> timers w <= timers (step w e))
  /\ timers (step w ScanTimeout) = pred (timers w)
  /\ (0 < timers w ->
      scanListener (step w ScanTimeout) = false
      /\ isScanning (ui (step w ScanTimeout)) = false
      /\ allDevices (ui (step w ScanTimeout)) = allDevices (ui w))
  /\ (forall env, hasPermission env = true ->
        timers (exec (scanForDevices_resolved env) w) = S (timers w)).
Proof.
  split; [|split; [|split]].
  - intros N. unfold step. destruct (enabled w e); [|lia].
    rewrite finish_timers.
    destruct e as [ | env | error device | | device | connected | deviceId error
                  | connected found | connected error | deviceId c error characteristic
                  | device r | | deviceId r | ]; unfold fire.
    + open_world w. cbn. lia.
    + destruct (scanForDevices_resolved_run env w) as [asked R]. rewrite R.
      open_world w. unfold scanForDevices_resume.
      destruct (hasPermission env); cbn; lia.
    + open_world w. unfold scanCallback.
      destruct error; [cbn; lia|].
      destruct device as [d|]; [|cbn; lia].
      destruct (name d) as [n|]; [|cbn; lia].
      destruct (n =? DEVICE_LOCAL_NAME)%string; cbn; lia.
    + contradiction.
    + open_world w. cbn. lia.
    + open_world w. cbn. lia.
    + open_world w. cbn. lia.
    + open_world w. cbn. lia.
    + open_world w. cbn. lia.
    + destruct (monitor_outcome c error characteristic w) as [T _]. rewrite T. lia.
    + open_world w. unfold readDeviceID_resume.
      destruct r as [err|chr]; [cbn; lia|].
      destruct (truthy_value chr); cbn; lia.
    + open_world w. cbn [ui connectedDevice].
      match goal with
      | |- context [disconnectDevice ?o] => destruct o
      end; cbn; lia.
    + open_world w. destruct r; cbn; lia.
    + open_world w. cbn [effectClosure].
      match goal with
      | |- context [disconnectDevice ?o] => destruct o
      end; cbn; lia.
  - unfold step, enabled. open_world w. cbn [timers].
    destruct timers0; reflexivity.
  - intros T. unfold step, enabled. open_world w. cbn [timers] in *.
    destruct (Nat.ltb_spec 0 timers0); [|lia]. repeat split.
  - intros env G. unfold exec.
    destruct (scanForDevices_resolved_run env w) as [asked R]. rewrite R, G.
    open_world w. reflexivity.
Qed.

(** X13. Only the float loops throw.  Every event leaves the list of
    uncaught exceptions as it was, except an IMU or Laser notification
    without error whose payload length is not a multiple of 4: that one
    adds a single [RangeError] and changes no React state.  The Weight
    callback, the scan callback, the connect sequence, the device-id read
    and [disconnectDevice] never throw. *)
Theorem only_float_loops_throw (e : Event) (w : World) :
  uncaught (step w e) = uncaught w
  \/ exists deviceId c characteristic v,
       e = Notify deviceId c None characteristic
       /\ c <> WeightChannel
       /\ truthy_value characteristic = Some v
       /\ length (Buffer_from_base64 v) mod 4 <> 0
       /\ uncaught (step w e) = uncaught w ++ [RangeError]
       /\ ui (step w e) = ui w.
Proof.
  unfold step. destruct (enabled w e); [|left; reflexivity].
  destruct e as [ | env | error device | | device | connected | deviceId error
                | connected found | connected error | deviceId c error characteristic
                | device r | | deviceId r | ]; unfold fire.
  - left. open_world w. reflexivity.
  - left. destruct (scanForDevices_resolved_run env w) as [asked R]. rewrite R.
    open_world w. unfold scanForDevices_resume.
    destruct (hasPermission env); reflexivity.
  - left. open_world w. unfold scanCallback.
    destruct error; [reflexivity|].
    destruct device as [d|]; [|reflexivity].
    destruct (name d) as [n|]; [|reflexivity].
    destruct (n =? DEVICE_LOCAL_NAME)%string; reflexivity.
  - left. open_world w. reflexivity.
  - left. open_world w. reflexivity.
  - left. open_world w. reflexivity.
  - left. open_world w. reflexivity.
  - left. open_world w. reflexivity.
  - left. open_world w. reflexivity.
  - rewrite finish_uncaught, finish_ui.
    destruct (monitor_outcome c error characteristic w)
      as [_ [X [_ [N|[T [U [W [E [v [V M]]]]]]]]]].
    + left. rewrite N. exact X.
    + right. subst error. exists deviceId, c, characteristic, v.
      rewrite T, X, U. repeat split; assumption.
  - left. open_world w. unfold readDeviceID_resume.
    destruct r as [err|chr]; [reflexivity|].
    destruct (truthy_value chr); reflexivity.
  - left. open_world w. cbn [ui connectedDevice].
    match goal with
    | |- context [disconnectDevice ?o] => destruct o
    end; reflexivity.
  - left. open_world w. destruct r; reflexivity.
  - left. open_world w. cbn [effectClosure].
    match goal with
    | |- context [disconnectDevice ?o] => destruct o
    end; reflexivity.
Qed.

(** X14. Who writes the connected device.  It is set only when a
    connect promise resolves, to the device the promise resolved with, and
    cleared only by [disconnectDevice] (the Disconnect button or the
    effect cleanup).  No other event changes it: not a rejected connect, a
    resolved or rejected discovery, a notification, the device-id read or
    anything of the scanner. *)
Theorem connectedDevice_writers (e : Event) (w : World) :
  connectedDevice (ui (step w e)) = connectedDevice (ui w)
  \/ (exists connected,
        e = ConnectResolved connected
        /\ connectedDevice (ui (step w e)) = Some connected)
  \/ ((e = PressDisconnect \/ e = EffectCleanup)
      /\ connectedDevice (ui (step w e)) = None).
Proof.
  unfold step. destruct (enabled w e); [|left; reflexivity].
  rewrite finish_ui.
  destruct e as [ | env | error device | | device | connected | deviceId error
                | connected found | connected error | deviceId c error characteristic
                | device r | | deviceId r | ]; unfold fire.
  - left. open_world w. reflexivity.
  - left. destruct (scanForDevices_resolved_run env w) as [asked R]. rewrite R.
    open_world w. unfold scanForDevices_resume.
    destruct (hasPermission env); reflexivity.
  - left. open_world w. unfold scanCallback.
    destruct error; [reflexivity|].
    destruct device as [d|]; [|reflexivity].
    destruct (name d) as [n|]; [|reflexivity].
    destruct (n =? DEVICE_LOCAL_NAME)%string; reflexivity.
  - left. open_world w. reflexivity.
  - left. open_world w. reflexivity.
  - right; left. exists connected. split; [reflexivity|]. open_world w. reflexivity.
  - left. open_world w. reflexivity.
  - left. open_world w. reflexivity.
  - left. open_world w. reflexivity.
  - left. destruct (monitor_outcome c error characteristic w) as [_ [_ [C _]]]. exact C.
  - left. open_world w. unfold readDeviceID_resume.
    destruct r as [err|chr]; [reflexivity|].
    destruct (truthy_value chr); reflexivity.
  - open_world w. cbn [ui connectedDevice].
    match goal with
    | |- context [disconnectDevice ?o] => destruct o
    end; [right; right; split; [left|]; reflexivity | left; reflexivity].
  - left. open_world w. destruct r; reflexivity.
  - open_world w. cbn [effectClosure].
    match goal with
    | |- context [disconnectDevice ?o] => destruct o
    end; [right; right; split; [right|]; reflexivity | left; reflexivity].
Qed.

End Events.

Lemma scan_timers_are_never_cancelled_witness :
  timers (run initialWorld [PressScan; PermissionsResolved env_ios]) = 1
  /\ scanListener (step (run initialWorld [PressScan; PermissionsResolved env_ios]) ScanTimeout)
     = false
  /\ timers (run initialWorld [PressScan; PermissionsResolved env_ios])
     <= timers (step (run initialWorld [PressScan; PermissionsResolved env_ios])
                     (ScanCallback (Some "Bluetooth off"%string) None)).
Proof.
  destruct (scan_timers_are_never_cancelled
              (ScanCallback (Some "Bluetooth off"%string) None)
              (run initialWorld [PressScan; PermissionsResolved env_ios]))
    as [M [_ [S _]]].
  split; [vm_compute; reflexivity|].
  split.
  - destruct S as [L _]; [vm_compute; lia | exact L].
  - apply M. discriminate.
Defined.

(** ** The scan callback and the rows of the list *)

(** X15. Reporting a device twice is the same as reporting it once:
    calling the scan callback again with the same arguments leaves the
    React state the first call left.  A call keeps every candidate already
    listed at its place and appends at most one. *)
Theorem scanCallback_idempotent
        (error : option BleError) (device : option Device) (w : World) :
  ui (exec (scanCallback error device) (exec (scanCallback error device) w))
  = ui (exec (scanCallback error device) w)
  /\ exists added,
       allDevices (ui (exec (scanCallback error device) w)) = allDevices (ui w) ++ added
       /\ length added <= 1.
Proof.
  split.
  - open_world w. unfold scanCallback.
    destruct error as [e|]; [reflexivity|].
    destruct device as [d|]; [|reflexivity].
    destruct (name d) as [n|]; [|reflexivity].
    destruct (n =? DEVICE_LOCAL_NAME)%string; [|reflexivity].
    js_unfold. unfold findIndex. rewrite !findIndex_from_found by lia.
    destruct (existsb (fun d0 => (id d0 =? id d)%string) allDevices0) eqn:X; cbn [negb].
    + rewrite X. reflexivity.
    + rewrite existsb_snoc by apply string_eqb_refl. reflexivity.
  - destruct (scanCallback_candidates error device w) as [E|[d [_ [_ [_ [_ E]]]]]].
    + exists []. rewrite E, app_nil_r. split; [reflexivity | simpl; lia].
    + exists [d]. split; [exact E | simpl; lia].
Qed.

Lemma renderItem_named (item : Device) :
  name item = Some DEVICE_LOCAL_NAME ->
  renderItem item = ("NeuraLoad (" ++ id item ++ ")")%string.
Proof. intros N. unfold renderItem. rewrite N. reflexivity. Qed.

Section Rows.

Context {codec : BufferCodec}.

(** X16. The rows of the device list.  After any sequence of events the
    keys the list gives its rows are pairwise different, and every row
    reads "NeuraLoad (<id>)": the "Unnamed" fallback, which a device
    without a name or with an empty name would get, is never shown. *)
Theorem device_rows_are_named_and_keyed (events : list Event) :
  NoDup (map keyExtractor (allDevices (ui (run initialWorld events))))
  /\ Forall (fun item => renderItem item = ("NeuraLoad (" ++ id item ++ ")")%string)
            (allDevices (ui (run initialWorld events)))
  /\ (forall item,
        name item = None \/ name item = Some ""%string ->
        renderItem item = ("Unnamed (" ++ id item ++ ")")%string
        /\ ~ In item (allDevices (ui (run initialWorld events)))).
Proof.
  destruct (run_keeps_candidates_ok events initialWorld candidates_ok_nil) as [N F].
  split; [exact N|].
  split.
  - eapply Forall_impl; [|exact F]. intros item. apply renderItem_named.
  - intros item E. split.
    + unfold renderItem. destruct E as [E|E]; rewrite E; reflexivity.
    + intros I. rewrite Forall_forall in F. specialize (F item I).
      destruct E as [E|E]; rewrite E in F; discriminate.
Qed.

End Rows.

Section Store.

Context {codec : BufferCodec}.

(** X17. Who writes the sensor slots.  The four slots change only on a
    notification that carries no error, on a device-id read that
    resolved, and on a disconnect, which puts the initial values back.
    The scanner, the permission answer, the connect and discovery
    completions, a notification with an error and a rejected read leave
    them as they are; in particular connecting to a device does not clear
    what the slots hold. *)
Theorem sensorStore_writers (e : Event) (w : World) :
  sensorStore (ui (step w e)) = sensorStore (ui w)
  \/ (exists deviceId c characteristic, e = Notify deviceId c None characteristic)
  \/ (exists device characteristic, e = ReadSettled device (inr characteristic))
  \/ ((e = PressDisconnect \/ e = EffectCleanup)
      /\ sensorStore (ui (step w e)) = sensorStore initialState).
Proof.
  unfold step. destruct (enabled w e); [|left; reflexivity].
  rewrite finish_ui.
  destruct e as [ | env | error device | | device | connected | deviceId error
                | connected found | connected error | deviceId c error characteristic
                | device r | | deviceId r | ]; unfold fire.
  - left. open_world w. reflexivity.
  - left. destruct (scanForDevices_resolved_run env w) as [asked R]. rewrite R.
    open_world w. unfold scanForDevices_resume.
    destruct (hasPermission env); reflexivity.
  - left. open_world w. unfold scanCallback.
    destruct error; [reflexivity|].
    destruct device as [d|]; [|reflexivity].
    destruct (name d) as [n|]; [|reflexivity].
    destruct (n =? DEVICE_LOCAL_NAME)%string; reflexivity.
  - left. open_world w. reflexivity.
  - left. open_world w. reflexivity.
  - left. open_world w. reflexivity.
  - left. open_world w. reflexivity.
  - left. open_world w. reflexivity.
  - left. open_world w. reflexivity.
  - destruct error as [err|].
    + left. open_world w. destruct c; reflexivity.
    + right; left. exists deviceId, c, characteristic. reflexivity.
  - destruct r as [err|chr].
    + left. open_world w. reflexivity.
    + right; right; left. exists device, chr. reflexivity.
  - open_world w. cbn [ui connectedDevice].
    match goal with
    | |- context [disconnectDevice ?o] => destruct o
    end; [right; right; right; split; [left|]; reflexivity | left; reflexivity].
  - left. open_world w. destruct r; reflexivity.
  - open_world w. cbn [effectClosure].
    match goal with
    | |- context [disconnectDevice ?o] => destruct o
    end; [right; right; right; split; [right|]; reflexivity | left; reflexivity].
Qed.

End Store.
